(** * A model of server.py (Markov_Decision_Simulator)

  [server.py] is a thin wrapper around Python's standard library: it
  subclasses [http.server.SimpleHTTPRequestHandler] to override
  [end_headers], changes directory to its own location, binds a
  [socketserver.TCPServer] on port 8000 inside a [with] statement and
  runs [serve_forever] until [KeyboardInterrupt].

  The behaviour of the program is therefore mostly the behaviour of the
  library code it calls.  The library parts that decide the properties
  below are translated from CPython 3.11 ([Lib/http/server.py],
  [Lib/socketserver.py], [Lib/posixpath.py]); the helpers whose exact
  output no property depends on (percent-decoding, MIME guessing, HTML
  rendering, date formatting) are parameters of the development, so every
  theorem holds for each of their implementations.

  Byte strings and Latin-1 text are [string]s of 8-bit [ascii]
  characters. *)

From Stdlib Require Import String Ascii List Bool ZArith Lia.
Import ListNotations.

Local Open Scope string_scope.

(** ** Python [str] methods, on Latin-1 strings *)
Module PyStr.

(** [str.isspace] restricted to the Latin-1 range. *)
Definition is_space (c : ascii) : bool :=
  let n := nat_of_ascii c in
  ((9 <=? n) && (n <=? 13))%nat || ((28 <=? n) && (n <=? 32))%nat
  || (n =? 133)%nat || (n =? 160)%nat.

Definition is_digit (c : ascii) : bool :=
  let n := nat_of_ascii c in ((48 <=? n) && (n <=? 57))%nat.

Definition digit_val (c : ascii) : Z := Z.of_nat (nat_of_ascii c - 48).

(** [s.split(c)] for a one-character separator (predicate [p]); keeps
    empty pieces, as Python does. *)
Fixpoint split_on (p : ascii -> bool) (s : string) : list string :=
  match s with
  | EmptyString => [EmptyString]
  | String c rest =>
      let r := split_on p rest in
      if p c then EmptyString :: r
      else match r with
           | [] => [String c EmptyString]
           | w :: ws => String c w :: ws
           end
  end.

Definition is_char (c : ascii) (d : ascii) : bool := Ascii.eqb d c.

Definition nonempty (s : string) : bool :=
  match s with EmptyString => false | _ => true end.

(** [s.split()]: split on runs of whitespace, dropping empty words. *)
Definition split_ws (s : string) : list string :=
  filter nonempty (split_on is_space s).

(** [sep.join(l)]. *)
Definition join (sep : string) (l : list string) : string :=
  String.concat sep l.

Definition startswith (p s : string) : bool := String.prefix p s.

Fixpoint rev_str (s : string) : string :=
  match s with
  | EmptyString => EmptyString
  | String c r => rev_str r ++ String c EmptyString
  end.

Definition endswith (p s : string) : bool :=
  String.prefix (rev_str p) (rev_str s).

Fixpoint lstrip (p : ascii -> bool) (s : string) : string :=
  match s with
  | String c r => if p c then lstrip p r else s
  | EmptyString => EmptyString
  end.

Definition rstrip (p : ascii -> bool) (s : string) : string :=
  rev_str (lstrip p (rev_str s)).

Fixpoint contains (c : ascii) (s : string) : bool :=
  match s with
  | EmptyString => false
  | String d r => Ascii.eqb c d || contains c r
  end.

(** [s.split(c, 1)[0]]. *)
Fixpoint before_first (c : ascii) (s : string) : string :=
  match s with
  | EmptyString => EmptyString
  | String d r => if Ascii.eqb c d then EmptyString
                  else String d (before_first c r)
  end.

(** ASCII lower-casing; header names are compared with ASCII literals,
    and no Latin-1 letter outside ASCII lowers to an ASCII one. *)
Definition lower_char (c : ascii) : ascii :=
  let n := nat_of_ascii c in
  if ((65 <=? n) && (n <=? 90))%nat then ascii_of_nat (n + 32) else c.

Fixpoint lower (s : string) : string :=
  match s with
  | EmptyString => EmptyString
  | String c r => String (lower_char c) (lower r)
  end.

(** [int(s)] on a Latin-1 string: surrounding whitespace, an optional
    sign, decimal digits with single underscores between digits. *)
Fixpoint digits_us (s : string) (acc : Z) (prev_digit : bool) : option Z :=
  match s with
  | EmptyString => if prev_digit then Some acc else None
  | String c r =>
      if is_digit c then digits_us r (acc * 10 + digit_val c) true
      else if Ascii.eqb c "_" && prev_digit then digits_us r acc false
      else None
  end.

Fixpoint count_digits (s : string) : nat :=
  match s with
  | EmptyString => O
  | String c r => (if is_digit c then 1 else 0) + count_digits r
  end.

(** [sys.int_info.default_max_str_digits]: [int] of a string with more
    digits raises [ValueError]. *)
Definition int_max_str_digits : nat := 4300.

Definition py_int (s : string) : option Z :=
  let t := rstrip is_space (lstrip is_space s) in
  if (int_max_str_digits <? count_digits t)%nat then None else
  match t with
  | String "-" r => option_map Z.opp (digits_us r 0 false)
  | String "+" r => digits_us r 0 false
  | _ => digits_us t 0 false
  end.

(** [str(n)] for a natural number. *)
Fixpoint dec_aux (fuel n : nat) (acc : string) : string :=
  match fuel with
  | O => acc
  | S f =>
      let d := String (ascii_of_nat (48 + n mod 10)) acc in
      if (n <? 10)%nat then d else dec_aux f (n / 10) d
  end.

Definition dec (n : nat) : string := dec_aux (S n) n EmptyString.

Definition decZ (z : Z) : string :=
  if (z <? 0)%Z then "-" ++ dec (Z.to_nat (- z)) else dec (Z.to_nat z).

End PyStr.

Import PyStr.

(** ** [posixpath] *)
Module PosixPath.

Definition slash : ascii -> bool := is_char "/".

(** One iteration of the component loop of [normpath]; [nc] is
    [new_comps] with its last element first. *)
Definition norm_step (initial_slashes : nat) (nc : list string)
    (comp : string) : list string :=
  if (comp =? "") || (comp =? ".") then nc
  else if negb (comp =? "..")
          || (Nat.eqb initial_slashes 0 && match nc with [] => true | _ => false end)
          || match nc with d :: _ => d =? ".." | [] => false end
  then comp :: nc
  else match nc with _ :: t => t | [] => [] end.

Fixpoint repeat_str (n : nat) (s : string) : string :=
  match n with O => "" | S k => s ++ repeat_str k s end.

Definition normpath (path : string) : string :=
  if path =? "" then "." else
  let initial_slashes :=
    if startswith "/" path then
      if startswith "//" path && negb (startswith "///" path) then 2%nat else 1%nat
    else 0%nat in
  let comps := split_on slash path in
  let new_comps := rev (fold_left (norm_step initial_slashes) comps []) in
  let p := join "/" new_comps in
  let p := repeat_str initial_slashes "/" ++ p in
  if p =? "" then "." else p.

Definition isabs (s : string) : bool := startswith "/" s.

(** [os.path.join(a, b)]. *)
Definition pjoin (a b : string) : string :=
  if startswith "/" b then b
  else if (a =? "") || endswith "/" a then a ++ b
  else a ++ "/" ++ b.

(** [p[:p.rfind('/') + 1]], computed on the reversed string. *)
Fixpoint drop_to_slash (s : string) : string :=
  match s with
  | EmptyString => EmptyString
  | String c r => if Ascii.eqb c "/" then s else drop_to_slash r
  end.

Definition dirname (p : string) : string :=
  let head := rev_str (drop_to_slash (rev_str p)) in
  if nonempty head && nonempty (lstrip slash head) then rstrip slash head
  else head.

Definition abspath (cwd p : string) : string :=
  normpath (if isabs p then p else pjoin cwd p).

End PosixPath.

Import PosixPath.

(** ** [http.server]: the request handler *)
Module Http.

(** Library helpers whose results are data the properties below do not
    inspect; every theorem quantifies over them. *)
Record Lib := mkLib {
  (** [urllib.parse.unquote(p, errors='surrogatepass')] on a [p] that
      contains a ['%'] (without one, [unquote] returns [p] itself).  Its
      result can hold characters beyond Latin-1, lone surrogates among
      them, on which [open()] and [os.listdir] raise [UnicodeEncodeError];
      the theorems on served paths take targets without ['%']. *)
  unquote_pct : string -> string;
  (** [SimpleHTTPRequestHandler.guess_type] *)
  guess_type : string -> string;
  (** the encoded HTML page built by [list_directory] *)
  listing_page : string -> list string -> string;
  (** [(error_message_format % ...).encode('UTF-8', 'replace')] *)
  error_page : Z -> string -> string -> string;
  (** [repr] *)
  repr : string -> string;
  (** [date_time_string()] and [date_time_string(mtime)] *)
  date_now : string;
  date_of : Z -> string;
  (** [email.utils.parsedate_to_datetime] on an If-Modified-Since value:
      [None] when it raises, [Some None] for an aware datetime whose
      tzinfo is not [timezone.utc], [Some (Some t)] for the UTC instant
      [t] in whole seconds (a naive result is taken as UTC). *)
  parse_ims : string -> option (option Z);
  (** [urllib.parse.urlsplit(p).path], and [urlunsplit] of the parts of
      [p] with ['/'] appended to the path *)
  url_path : string -> string;
  url_add_slash : string -> string;
  fs_encoding : string;
  sys_version : string
}.

(** What [os.path.isdir], [os.path.isfile], [open], [os.fstat] and
    [os.listdir] see at a path under a directory. *)
Inductive entry :=
| File (readable : bool) (contents : string) (mtime : Z)
| Dir (listable : bool) (names : list string).

Definition FS := string -> list string -> option entry.

(** What is written to the connection: [flush_headers] writes the joined
    header buffer, [copyfile] and [send_error] write body bytes. *)
Inductive chunk :=
| WHeaders (lines : list string)
| WBody (bytes : string).

Definition chunk_bytes (c : chunk) : string :=
  match c with WHeaders l => String.concat "" l | WBody b => b end.

Definition wire (cs : list chunk) : string :=
  String.concat "" (map chunk_bytes cs).

(** The outcome of [http.client.parse_headers] on the request. *)
Inductive headers_result :=
| HeadersOk (h : list (string * string))
| HeadersLineTooLong (err : string)
| HeadersTooMany (err : string).

Record request := mkRequest {
  raw_requestline : string;   (* [self.rfile.readline(65537)] *)
  raw_headers : headers_result
}.

Record hstate := mkH {
  directory : string;
  request_version : string;
  command : option string;
  req_path : string;
  req_headers : list (string * string);
  close_connection : bool;
  headers_buffer : list string;
  wfile : list chunk
}.

Definition set_version v s :=
  mkH (directory s) v (command s) (req_path s) (req_headers s)
      (close_connection s) (headers_buffer s) (wfile s).
Definition set_command c s :=
  mkH (directory s) (request_version s) c (req_path s) (req_headers s)
      (close_connection s) (headers_buffer s) (wfile s).
Definition set_path p s :=
  mkH (directory s) (request_version s) (command s) p (req_headers s)
      (close_connection s) (headers_buffer s) (wfile s).
Definition set_headers h s :=
  mkH (directory s) (request_version s) (command s) (req_path s) h
      (close_connection s) (headers_buffer s) (wfile s).
Definition set_close b s :=
  mkH (directory s) (request_version s) (command s) (req_path s)
      (req_headers s) b (headers_buffer s) (wfile s).
Definition set_buffer l s :=
  mkH (directory s) (request_version s) (command s) (req_path s)
      (req_headers s) (close_connection s) l (wfile s).
Definition set_wfile w s :=
  mkH (directory s) (request_version s) (command s) (req_path s)
      (req_headers s) (close_connection s) (headers_buffer s) w.

(** The handler's methods run in a state monad over the handler object. *)
Definition HM (A : Type) := hstate -> A * hstate.
Definition ret {A} (a : A) : HM A := fun s => (a, s).
Definition bind {A B} (m : HM A) (k : A -> HM B) : HM B :=
  fun s => let (a, s') := m s in k a s'.
Definition gets {A} (f : hstate -> A) : HM A := fun s => (f s, s).
Definition modify (f : hstate -> hstate) : HM unit := fun s => (tt, f s).

Notation "x <- m ;; k" := (bind m (fun x => k))
  (at level 61, m at next level, right associativity).
Notation "m ;; k" := (bind m (fun _ => k))
  (at level 61, right associativity).

Definition crlf : string := String "013" (String "010" EmptyString).

Definition protocol_version : string := "HTTP/1.0".
Definition server_version : string := "SimpleHTTP/0.6".
Definition error_content_type : string := "text/html;charset=utf-8".

(** Python's [a >= b] on [str]. *)
Definition str_ge (a b : string) : bool := negb (String.ltb a b).

(** The entries of [BaseHTTPRequestHandler.responses] this handler uses. *)
Definition responses (code : Z) : option (string * string) :=
  match code with
  | 100%Z => Some ("Continue", "Request received, please continue")
  | 200%Z => Some ("OK", "Request fulfilled, document follows")
  | 301%Z => Some ("Moved Permanently", "Object moved permanently -- see URI list")
  | 304%Z => Some ("Not Modified", "Document has not changed since given time")
  | 400%Z => Some ("Bad Request", "Bad request syntax or unsupported method")
  | 404%Z => Some ("Not Found", "Nothing matches the given URI")
  | 414%Z => Some ("Request-URI Too Long", "URI is too long")
  | 431%Z => Some ("Request Header Fields Too Large",
                   "The server is unwilling to process the request because its header fields are too large")
  | 501%Z => Some ("Not Implemented", "Server does not support this operation")
  | 505%Z => Some ("HTTP Version Not Supported", "Cannot fulfill request")
  | _ => None
  end.

(** [self.headers.get(name, default)] and [name in self.headers]
    (case-insensitive, first match). *)
Fixpoint hget (name : string) (hs : list (string * string)) (default : string)
  : string :=
  match hs with
  | [] => default
  | (k, v) :: t => if lower k =? lower name then v else hget name t default
  end.

Definition hhas (name : string) (hs : list (string * string)) : bool :=
  existsb (fun kv => lower (fst kv) =? lower name) hs.


Section Handler.
Variable lib : Lib.
Variable fs : FS.

Definition not_http09 : HM bool :=
  gets (fun s => negb (request_version s =? "HTTP/0.9")).

(** [BaseHTTPRequestHandler.send_response_only] *)
Definition send_response_only (code : Z) (message : option string) : HM unit :=
  v <- not_http09 ;;
  if v then
    let msg := match message with
               | Some m => m
               | None => match responses code with Some (sh, _) => sh | None => "" end
               end in
    modify (fun s => set_buffer (app (headers_buffer s)
      [protocol_version ++ " " ++ decZ code ++ " " ++ msg ++ crlf]) s)
  else ret tt.

(** [BaseHTTPRequestHandler.send_header] *)
Definition send_header (keyword value : string) : HM unit :=
  v <- not_http09 ;;
  (if v then
     modify (fun s => set_buffer (app (headers_buffer s)
       [keyword ++ ": " ++ value ++ crlf]) s)
   else ret tt) ;;
  if lower keyword =? "connection" then
    if lower value =? "close" then modify (set_close true)
    else if lower value =? "keep-alive" then modify (set_close false)
    else ret tt
  else ret tt.

(** [BaseHTTPRequestHandler.flush_headers] *)
Definition flush_headers : HM unit :=
  modify (fun s => set_buffer [] (set_wfile (app (wfile s)
    [WHeaders (headers_buffer s)]) s)).

(** [BaseHTTPRequestHandler.end_headers] *)
Definition base_end_headers : HM unit :=
  v <- not_http09 ;;
  if v then
    modify (fun s => set_buffer (app (headers_buffer s) [crlf]) s) ;;
    flush_headers
  else ret tt.

(** [self.wfile.write(b)] *)
Definition write_body (b : string) : HM unit :=
  modify (fun s => set_wfile (app (wfile s) [WBody b]) s).

(** [BaseHTTPRequestHandler.send_response] *)
Definition send_response (code : Z) (message : option string) : HM unit :=
  send_response_only code message ;;
  send_header "Server" (server_version ++ " " ++ sys_version lib) ;;
  send_header "Date" (date_now lib).

(** [MyHTTPRequestHandler.end_headers], server.py lines 14-19. *)
Definition my_end_headers : HM unit :=
  send_header "Access-Control-Allow-Origin" "*" ;;
  send_header "Cross-Origin-Embedder-Policy" "require-corp" ;;
  send_header "Cross-Origin-Opener-Policy" "same-origin" ;;
  base_end_headers.

(** A translated path: [self.directory] joined with [comps], plus a
    trailing ['/'] when [slash]. *)
Record tpath := mkT { tp_dir : string; tp_comps : list string; tp_slash : bool }.

Definition tp_string (t : tpath) : string :=
  fold_left pjoin (tp_comps t) (tp_dir t) ++ (if tp_slash t then "/" else "").

(** [SimpleHTTPRequestHandler.translate_path] *)
Definition translate_path (dir path : string) : tpath :=
  let p := before_first "?" path in
  let p := before_first "#" p in
  let trailing_slash := endswith "/" (rstrip is_space p) in
  let p := if contains "%" p then unquote_pct lib p else p in
  let p := normpath p in
  let words := filter nonempty (split_on slash p) in
  let comps := filter (fun w => negb (nonempty (dirname w) || (w =? ".")
                                      || (w =? ".."))) words in
  mkT dir comps trailing_slash.

Definition is_file (e : option entry) : bool :=
  match e with Some (File _ _ _) => true | _ => false end.

(** The [for index in "index.html", "index.htm"] loop of [send_head]. *)
Fixpoint find_index (t : tpath) (names : list string) : option tpath :=
  match names with
  | [] => None
  | n :: rest =>
      let t' := mkT (tp_dir t) (app (tp_comps t) [n]) false in
      if is_file (fs (tp_dir t') (tp_comps t')) then Some t'
      else find_index t rest
  end.

Definition is_head (c : option string) : bool :=
  match c with Some x => x =? "HEAD" | None => false end.

(** [s.split('/', 1)[1]] *)
Fixpoint after_first (c : ascii) (s : string) : string :=
  match s with
  | EmptyString => EmptyString
  | String d r => if Ascii.eqb c d then r else after_first c r
  end.

(** The version check of [parse_request]: [None] where it raises
    [ValueError] or [IndexError]. *)
Definition parse_version (version : string) : option (Z * Z) :=
  if negb (startswith "HTTP/" version) then None else
  let base_version_number := after_first "/" version in
  match split_on (is_char ".") base_version_number with
  | [a; b] =>
      match py_int a, py_int b with
      | Some x, Some y => Some (x, y)
      | _, _ => None
      end
  | _ => None
  end.

(** gh-87389: a path starting with ['//'] is reduced to a single ['/']. *)
Definition collapse_slashes (path : string) : string :=
  if startswith "//" path then "/" ++ lstrip slash path else path.

Definition crlf_char (c : ascii) : bool :=
  Ascii.eqb c "013" || Ascii.eqb c "010".

Section Methods.
(** [self.end_headers()], dispatched on the handler class. *)
Variable end_headers : HM unit.

(** [BaseHTTPRequestHandler.send_error] *)
Definition send_error (code : Z) (message explain : option string) : HM unit :=
  let '(shortmsg, longmsg) :=
    match responses code with Some p => p | None => ("???", "???") end in
  let message := match message with Some m => m | None => shortmsg end in
  let explain := match explain with Some e => e | None => longmsg end in
  send_response code (Some message) ;;
  send_header "Connection" "close" ;;
  let has_body := (200 <=? code)%Z && negb (code =? 204)%Z
                  && negb (code =? 205)%Z && negb (code =? 304)%Z in
  let body := error_page lib code message explain in
  (if has_body then
     send_header "Content-Type" error_content_type ;;
     send_header "Content-Length" (dec (String.length body))
   else ret tt) ;;
  end_headers ;;
  c <- gets command ;;
  if negb (is_head c) && has_body && nonempty body then write_body body
  else ret tt.

(** [SimpleHTTPRequestHandler.list_directory] *)
Definition list_directory (t : tpath) : HM (option string) :=
  match fs (tp_dir t) (tp_comps t) with
  | Some (Dir true names) =>
      p <- gets req_path ;;
      let encoded := listing_page lib p names in
      send_response 200 None ;;
      send_header "Content-type" ("text/html; charset=" ++ fs_encoding lib) ;;
      send_header "Content-Length" (dec (String.length encoded)) ;;
      end_headers ;;
      ret (Some encoded)
  | _ =>
      send_error 404 (Some "No permission to list directory") None ;;
      ret None
  end.

(** [open()] and [os.stat()] refuse a path holding a NUL byte with
    [ValueError]; [os.path.isdir] then answers [False]. *)
Definition has_nul (path : string) : bool := contains "000" path.

(** Whether [tp_string t] holds a NUL byte.  The directory comes from
    [os.getcwd()] and holds none, so a NUL can only come from the
    components taken from the request. *)
Definition path_has_nul (t : tpath) : bool := existsb has_nul (tp_comps t).

(** An exception escaping the handler: [send_head] catches only
    [OSError], so the [ValueError] of [open()] leaves [handle];
    [BaseServer.handle_error] logs it and [shutdown_request] closes the
    connection, on which nothing more is written.  In the model the
    request ends with [close_connection] set and no body: [do_GET],
    [do_HEAD], [handle_one_request] and [handle] then write nothing. *)
Definition handler_exception : HM (option string) :=
  modify (set_close true) ;; ret None.

(** The part of [send_head] after the directory check. *)
Definition send_file (t : tpath) : HM (option string) :=
  let path := tp_string t in
  let ctype := guess_type lib path in
  if endswith "/" path then
    send_error 404 (Some "File not found") None ;; ret None
  else if path_has_nul t then
    (* [open(path, 'rb')] raises [ValueError: embedded null byte] *)
    handler_exception
  else
    match fs (tp_dir t) (tp_comps t) with
    | Some (File true contents mtime) =>
        hs <- gets req_headers ;;
        let not_modified :=
          if hhas "If-Modified-Since" hs && negb (hhas "If-None-Match" hs) then
            match parse_ims lib (hget "If-Modified-Since" hs "") with
            | Some (Some ims) => (mtime <=? ims)%Z
            | _ => false
            end
          else false in
        if not_modified then
          send_response 304 None ;; end_headers ;; ret None
        else
          send_response 200 None ;;
          send_header "Content-type" ctype ;;
          send_header "Content-Length" (dec (String.length contents)) ;;
          send_header "Last-Modified" (date_of lib mtime) ;;
          end_headers ;;
          ret (Some contents)
    | _ =>
        (* [open(path, 'rb')] raises [OSError] *)
        send_error 404 (Some "File not found") None ;; ret None
    end.

(** [SimpleHTTPRequestHandler.send_head] *)
Definition send_head : HM (option string) :=
  p <- gets req_path ;;
  d <- gets directory ;;
  let t := translate_path d p in
  (* [os.path.isdir(path)] *)
  match if path_has_nul t then None else fs d (tp_comps t) with
  | Some (Dir _ _) =>
      if negb (endswith "/" (url_path lib p)) then
        send_response 301 None ;;
        send_header "Location" (url_add_slash lib p) ;;
        send_header "Content-Length" "0" ;;
        end_headers ;;
        ret None
      else
        match find_index t ["index.html"; "index.htm"] with
        | Some t' => send_file t'
        | None => list_directory t
        end
  | _ => send_file t
  end.

(** [SimpleHTTPRequestHandler.do_GET]; [shutil.copyfileobj] writes
    nothing for an empty source. *)
Definition do_GET : HM unit :=
  f <- send_head ;;
  match f with
  | Some b => if nonempty b then write_body b else ret tt
  | None => ret tt
  end.

(** [SimpleHTTPRequestHandler.do_HEAD] *)
Definition do_HEAD : HM unit := _ <- send_head ;; ret tt.

(** [BaseHTTPRequestHandler.handle_expect_100] *)
Definition handle_expect_100 : HM bool :=
  send_response_only 100 None ;; end_headers ;; ret true.

(** The part of [parse_request] after the request line is split. *)
Definition parse_request_rest (words : list string) (hr : headers_result)
  : HM bool :=
  match words with
  | command :: path :: _ =>
      ok <- (if Nat.eqb (length words) 2 then
               modify (set_close true) ;;
               if negb (command =? "GET") then
                 send_error 400 (Some ("Bad HTTP/0.9 request type ("
                                       ++ repr lib command ++ ")")) None ;;
                 ret false
               else ret true
             else ret true) ;;
      if negb ok then ret false else
      modify (set_command (Some command)) ;;
      modify (set_path (collapse_slashes path)) ;;
      match hr with
      | HeadersLineTooLong err =>
          send_error 431 (Some "Line too long") (Some err) ;; ret false
      | HeadersTooMany err =>
          send_error 431 (Some "Too many headers") (Some err) ;; ret false
      | HeadersOk h =>
          modify (set_headers h) ;;
          let conntype := lower (hget "Connection" h "") in
          (if conntype =? "close" then modify (set_close true)
           else if (conntype =? "keep-alive")
                   && str_ge protocol_version "HTTP/1.1"
                then modify (set_close false)
           else ret tt) ;;
          let expect := lower (hget "Expect" h "") in
          rv <- gets request_version ;;
          if (expect =? "100-continue") && str_ge protocol_version "HTTP/1.1"
             && str_ge rv "HTTP/1.1"
          then handle_expect_100
          else ret true
      end
  | _ => ret false
  end.

(** [BaseHTTPRequestHandler.parse_request] *)
Definition parse_request (raw : string) (hr : headers_result) : HM bool :=
  modify (fun s => set_close true (set_version "HTTP/0.9" (set_command None s))) ;;
  let requestline := rstrip crlf_char raw in
  let words := split_ws requestline in
  match words with
  | [] => ret false
  | _ =>
      ok <- (if (3 <=? length words)%nat then
               let version := last words "" in
               match parse_version version with
               | None =>
                   send_error 400 (Some ("Bad request version ("
                                         ++ repr lib version ++ ")")) None ;;
                   ret false
               | Some (major, minor) =>
                   (if ((1 <? major)%Z || ((major =? 1)%Z && (1 <=? minor)%Z))
                       && str_ge protocol_version "HTTP/1.1"
                    then modify (set_close false) else ret tt) ;;
                   if (2 <? major)%Z || ((major =? 2)%Z && (0 <=? minor)%Z) then
                     send_error 505 (Some ("Invalid HTTP version ("
                                           ++ after_first "/" version ++ ")")) None ;;
                     ret false
                   else modify (set_version version) ;; ret true
               end
             else ret true) ;;
      if negb ok then ret false
      else if negb ((2 <=? length words) && (length words <=? 3))%nat then
        send_error 400 (Some ("Bad request syntax (" ++ repr lib requestline
                              ++ ")")) None ;;
        ret false
      else parse_request_rest words hr
  end.

(** [BaseHTTPRequestHandler.handle_one_request]; the methods the class
    has are [do_GET] and [do_HEAD]. *)
Definition handle_one_request (r : request) : HM unit :=
  let raw := raw_requestline r in
  if (65536 <? String.length raw)%nat then
    modify (fun s => set_command (Some "") (set_version "" s)) ;;
    send_error 414 None None
  else if negb (nonempty raw) then modify (set_close true)
  else
    ok <- parse_request raw (raw_headers r) ;;
    if negb ok then ret tt else
    c <- gets command ;;
    match c with
    | Some cmd =>
        if cmd =? "GET" then do_GET
        else if cmd =? "HEAD" then do_HEAD
        else send_error 501 (Some ("Unsupported method (" ++ repr lib cmd
                                   ++ ")")) None
    | None => ret tt
    end.

End Methods.

(** The handler class of server.py: [self.end_headers] is
    [MyHTTPRequestHandler.end_headers]. *)
Definition my_handle_one_request (r : request) : HM unit :=
  handle_one_request my_end_headers r.

Definition eof_request : request := mkRequest "" (HeadersOk []).

(** [BaseHTTPRequestHandler.handle]: one request, then more while
    [close_connection] is false; an exhausted stream reads [b""]. *)
Fixpoint handle_loop (reqs : list request) : HM unit :=
  match reqs with
  | [] => my_handle_one_request eof_request
  | r :: rest =>
      my_handle_one_request r ;;
      c <- gets close_connection ;;
      if c then ret tt else handle_loop rest
  end.

Definition handle (reqs : list request) : HM unit :=
  modify (set_close true) ;; handle_loop reqs.

(** A handler built by [finish_request] for one connection, with
    [directory = os.getcwd()]; the result is what it wrote. *)
Definition init_handler (dir : string) : hstate :=
  mkH dir "HTTP/0.9" None "" [] true [] [].

Definition serve_connection (dir : string) (reqs : list request) : list chunk :=
  wfile (snd (handle reqs (init_handler dir))).

End Handler.
End Http.

(** ** The script: [os.chdir], the [with socketserver.TCPServer] block and
  [serve_forever] *)
Module Script.
Import Http.

(** Python exceptions the script can see. *)
Inductive exn :=
| KeyboardInterrupt
| OSError (errno : Z) (msg : string)
| OtherError (name : string).

Inductive socket_state :=
| NoSocket
| SockOpen                               (* [socket.socket(...)] *)
| SockListening (host : string) (port : Z)
| SockClosed.

Record world := mkW {
  cwd : string;
  stdout : list string;
  stderr : list string;
  sock : socket_state;
  bound : option (string * Z);          (* the address passed to [bind] *)
  served : list (string * list chunk)   (* (handler directory, bytes written) *)
}.

(** What happens around [selector.select] in the accept loop. *)
Inductive loop_event :=
| Idle                                  (* [select] times out *)
| Connection (reqs : list request)      (* a client connects and sends [reqs] *)
| HandlerFault                          (* the handler raises an [Exception] *)
| Interrupt                             (* SIGINT: [KeyboardInterrupt] is raised *)
| LoopFault (e : exn).                  (* [select] itself raises [e] *)

(** The process's inputs.  [argv] and [environ] are available to the
    script; [port_in_use] says whether another socket listens on the
    port. *)
Record env := mkEnv {
  script_file : string;                 (* [__file__] *)
  start_cwd : string;
  argv : list string;
  environ : list (string * string);
  port_in_use : bool;
  events : list loop_event
}.

(** Outcome of a statement: normal completion, a raised exception, or
    still running when the observed events run out. *)
Inductive outcome (A : Type) :=
| Done (a : A)
| Raised (e : exn)
| Running.
Arguments Done {A}. Arguments Raised {A}. Arguments Running {A}.

Definition SM (A : Type) := world -> outcome A * world.

Definition sret {A} (a : A) : SM A := fun w => (Done a, w).
Definition sbind {A B} (m : SM A) (k : A -> SM B) : SM B :=
  fun w => match m w with
           | (Done a, w') => k a w'
           | (Raised e, w') => (Raised e, w')
           | (Running, w') => (Running, w')
           end.
Definition raise {A} (e : exn) : SM A := fun w => (Raised e, w).
Definition running {A} : SM A := fun w => (Running, w).
Definition supdate (f : world -> world) : SM unit := fun w => (Done tt, f w).
Definition sgets {A} (f : world -> A) : SM A := fun w => (Done (f w), w).

Notation "x <-- m ;;; k" := (sbind m (fun x => k))
  (at level 61, m at next level, right associativity).
Notation "m ;;; k" := (sbind m (fun _ => k))
  (at level 61, right associativity).

(** [try: body except KeyboardInterrupt: handler] *)
Definition try_except_kbi (body handler : SM unit) : SM unit :=
  fun w => match body w with
           | (Raised KeyboardInterrupt, w') => handler w'
           | r => r
           end.

(** [with ctx as x: body]: [__exit__] runs on normal completion and on
    an exception, which it does not suppress. *)
Definition with_stmt {A} (exit : SM unit) (body : SM A) : SM A :=
  fun w => match body w with
           | (Done a, w') =>
               match exit w' with
               | (Done _, w'') => (Done a, w'')
               | (Raised e', w'') => (Raised e', w'')
               | (Running, w'') => (Running, w'')
               end
           | (Raised e, w') =>
               match exit w' with
               | (Done _, w'') => (Raised e, w'')
               | (Raised e', w'') => (Raised e', w'')
               | (Running, w'') => (Running, w'')
               end
           | (Running, w') => (Running, w')
           end.

Definition set_cwd c w := mkW c (stdout w) (stderr w) (sock w) (bound w) (served w).
Definition set_sock k w := mkW (cwd w) (stdout w) (stderr w) k (bound w) (served w).
Definition set_bound b w := mkW (cwd w) (stdout w) (stderr w) (sock w) b (served w).
Definition add_stdout l w :=
  mkW (cwd w) (app (stdout w) [l]) (stderr w) (sock w) (bound w) (served w).
Definition add_stderr l w :=
  mkW (cwd w) (stdout w) (app (stderr w) [l]) (sock w) (bound w) (served w).
Definition add_served x w :=
  mkW (cwd w) (stdout w) (stderr w) (sock w) (bound w) (app (served w) [x]).

Definition print (l : string) : SM unit := supdate (add_stdout l).

Definition exn_line (e : exn) : string :=
  match e with
  | KeyboardInterrupt => "KeyboardInterrupt"
  | OSError n m => "OSError: [Errno " ++ decZ n ++ "] " ++ m
  | OtherError n => n
  end.

Definition PORT : Z := 8000.

Section Run.
Variable lib : Lib.
Variable fs : FS.
Variable ev : env.

(** [TCPServer.server_close] *)
Definition server_close : SM unit := supdate (set_sock SockClosed).

(** [TCPServer.__init__]: create the socket, [server_bind] (no
    [SO_REUSEADDR]: [allow_reuse_address] is [False]), [server_activate];
    on failure [server_close] and re-raise. *)
Definition tcp_server (host : string) (port : Z) : SM unit :=
  supdate (set_sock SockOpen) ;;;
  supdate (set_bound (Some (host, port))) ;;;
  if port_in_use ev then
    server_close ;;; raise (OSError 98 "Address already in use")
  else supdate (set_sock (SockListening host port)).

(** [BaseServer.serve_forever] over the observed events.  [stderr]
    records the lines of [handle_error] for the [HandlerFault] events and
    the traceback of an uncaught exception; the line [log_message] writes
    to stderr for every request is not modelled. *)
Fixpoint serve_forever (evs : list loop_event) : SM unit :=
  match evs with
  | [] => running
  | Idle :: rest => serve_forever rest
  | Connection reqs :: rest =>
      d <-- sgets cwd ;;;
      supdate (add_served (d, serve_connection lib fs d reqs)) ;;;
      serve_forever rest
  | HandlerFault :: rest =>
      (* [handle_error] prints the traceback and the loop goes on *)
      supdate (add_stderr "Exception occurred during processing of request") ;;;
      serve_forever rest
  | Interrupt :: _ => raise KeyboardInterrupt
  | LoopFault e :: _ => raise e
  end.

Definition banner : list string :=
  [ "";
    "╔══════════════════════════════════════════════════════════╗";
    "║     MDP Simulator Server Running                         ║";
    "╚══════════════════════════════════════════════════════════╝";
    "";
    "  🌐 Open your browser and navigate to:";
    "";
    "     http://localhost:" ++ decZ PORT;
    "";
    "  Press Ctrl+C to stop the server";
    "" ].

Fixpoint print_all (ls : list string) : SM unit :=
  match ls with
  | [] => sret tt
  | l :: rest => print l ;;; print_all rest
  end.

Definition shutdown_message : string :=
  String "010" (String "010" "  Server stopped.").

(** server.py lines 21-39. *)
Definition main : SM unit :=
  c <-- sgets cwd ;;;
  supdate (set_cwd (dirname (abspath c (script_file ev)))) ;;;
  tcp_server "" PORT ;;;
  with_stmt server_close
    (print_all banner ;;;
     try_except_kbi (serve_forever (events ev)) (print shutdown_message)).

Inductive status :=
| Exit (code : Z)
| KilledBySIGINT
| StillRunning.

(** The interpreter: an uncaught exception prints a traceback to stderr
    and exits with status 1, or by SIGINT for [KeyboardInterrupt]. *)
Definition init_world : world :=
  mkW (start_cwd ev) [] [] NoSocket None [].

Definition run : status * world :=
  match main init_world with
  | (Done _, w) => (Exit 0, w)
  | (Raised KeyboardInterrupt, w) =>
      (KilledBySIGINT, add_stderr "KeyboardInterrupt" w)
  | (Raised e, w) => (Exit 1, add_stderr (exn_line e) w)
  | (Running, w) => (StillRunning, w)
  end.

End Run.
End Script.

(** ** A concrete environment for evaluating the model *)
Module Demo.
Import Http.

Definition lib : Lib := mkLib
  (fun p => p) (fun _ => "text/plain") (fun _ _ => "<ul></ul>")
  (fun code _ _ => "<h1>Error " ++ decZ code ++ "</h1>") (fun s => "'" ++ s ++ "'")
  "Sat, 17 Oct 2026 10:00:00 GMT" (fun _ => "Thu, 01 Jan 1970 00:01:40 GMT")
  (fun _ => Some (Some 200%Z)) (fun p => before_first "?" p) (fun p => p ++ "/")
  "utf-8" "Python/3.11.2".

Definition root : string := "/srv/mdp".

Definition fs : FS := fun d comps =>
  if negb (d =? root) then None else
  match comps with
  | [] => Some (Dir true ["a.txt"; "index.html"; "secret.txt"; "sub"])
  | ["a.txt"] => Some (File true "hello" 100)
  | ["index.html"] => Some (File true "<html></html>" 100)
  | ["secret.txt"] => Some (File false "s3cr3t" 100)
  | ["sub"] => Some (Dir true [])
  | _ => None
  end.

Definition req (line : string) : request :=
  mkRequest (line ++ crlf) (HeadersOk []).

Definition run (r : request) : list chunk := serve_connection lib fs root [r].

(** The process started as [python3 /srv/mdp/server.py --port 9000] from
    [/home/user], with [PORT=9000] in its environment. *)
Definition proc (in_use : bool) (evs : list Script.loop_event) : Script.env :=
  Script.mkEnv "/srv/mdp/server.py" "/home/user" ["/srv/mdp/server.py"; "--port"; "9000"]
    [("PORT", "9000")] in_use evs.
End Demo.

(** ** Observations on the model: predicates and derived notions the
  properties are stated with *)
Module Props.
Import Http Script.

Fixpoint str_forall (f : ascii -> bool) (s : string) : bool :=
  match s with
  | EmptyString => true
  | String c r => f c && str_forall f r
  end.

(** A request-line word: non-empty and without whitespace. *)
Definition plain (s : string) : Prop :=
  nonempty s = true /\ str_forall (fun c => negb (is_space c)) s = true.

(** A character a path component can hold without being changed by
    [translate_path] or refused by [open()]: no whitespace, ['/'], ['%'],
    ['?'], ['#'] or NUL. *)
Definition name_char (a : ascii) : bool :=
  negb (is_space a || Ascii.eqb a "/" || Ascii.eqb a "%" || Ascii.eqb a "?"
        || Ascii.eqb a "#" || Ascii.eqb a "000").

(** A path component written literally in a request target. *)
Definition simple_name (c : string) : bool :=
  nonempty c && str_forall name_char c && negb (c =? ".") && negb (c =? "..").

(** The request target [/c1/c2/.../cn]. *)
Definition literal_path (comps : list string) : string := "/" ++ join "/" comps.

Definition cors_lines : list string :=
  [ "Access-Control-Allow-Origin: *" ++ crlf;
    "Cross-Origin-Embedder-Policy: require-corp" ++ crlf;
    "Cross-Origin-Opener-Policy: same-origin" ++ crlf ].

Definition block_ok (c : chunk) : Prop :=
  match c with
  | WHeaders l => exists pre, l = app pre (app cors_lines [crlf])
  | WBody _ => True
  end.

Definition inv (s : hstate) : Prop := Forall block_ok (wfile s).

Definition preserves {A} (m : HM A) : Prop :=
  forall s, inv s -> inv (snd (m s)).

(** The header block [send_head] writes for a regular file. *)
Definition ok200_lines lib (ct cl lm : string) : list string :=
  app [protocol_version ++ " 200 OK" ++ crlf;
       "Server: " ++ server_version ++ " " ++ sys_version lib ++ crlf;
       "Date: " ++ date_now lib ++ crlf;
       "Content-type: " ++ ct ++ crlf;
       "Content-Length: " ++ cl ++ crlf;
       "Last-Modified: " ++ lm ++ crlf]
      (app cors_lines [crlf]).

(** [os.path.dirname(os.path.abspath(__file__))] *)
Definition script_dir (ev : env) : string :=
  dirname (abspath (start_cwd ev) (script_file ev)).

(** The world right after [TCPServer.__init__] succeeded. *)
Definition listening_world (ev : env) : world :=
  mkW (script_dir ev) [] [] (SockListening "" PORT) (Some ("", PORT)) [].

(** Events after which the accept loop goes on. *)
Definition continues (e : loop_event) : bool :=
  match e with Idle | Connection _ | HandlerFault => true | _ => false end.

(** The body of the [with] statement, server.py lines 24-39. *)
Definition serving_body lib fs ev : SM unit :=
  print_all banner ;;;
  try_except_kbi (serve_forever lib fs (events ev)) (print shutdown_message).

(** The same process, observing another sequence of loop events. *)
Definition set_events (evs : list loop_event) (ev : env) : env :=
  mkEnv (script_file ev) (start_cwd ev) (argv ev) (environ ev) (port_in_use ev) evs.

End Props.

(** ** Definitions for the further properties of the handler and the script *)
Module ExtraDefs.
Import Http Script.

(** The header block of the redirect [send_head] sends for a directory
    whose URL lacks its trailing slash. *)
Definition redirect_lines lib (loc : string) : list string :=
  app [protocol_version ++ " 301 Moved Permanently" ++ crlf;
       "Server: " ++ server_version ++ " " ++ sys_version lib ++ crlf;
       "Date: " ++ date_now lib ++ crlf;
       "Location: " ++ loc ++ crlf;
       "Content-Length: 0" ++ crlf]
      (app Props.cors_lines [crlf]).


(** The header block of the 304 answer [send_head] sends for a file not
    modified since [If-Modified-Since]. *)
Definition notmod_lines lib : list string :=
  app [protocol_version ++ " 304 Not Modified" ++ crlf;
       "Server: " ++ server_version ++ " " ++ sys_version lib ++ crlf;
       "Date: " ++ date_now lib ++ crlf]
      (app Props.cors_lines [crlf]).

(** [m] keeps [P]: run from a state satisfying [P], it ends in one. *)
Definition keeps (P : hstate -> Prop) {A} (m : HM A) : Prop :=
  forall s, P s -> P (snd (m s)).

(** [m] establishes [P]: it ends in a state satisfying [P] from any state. *)
Definition establishes (P : hstate -> Prop) {A} (m : HM A) : Prop :=
  forall s, P (snd (m s)).

Definition closing (s : hstate) : Prop := close_connection s = true.

(** What [shutil.copyfileobj] or [self.wfile.write] put on the wire for a
    body [b]: nothing when [b] is empty. *)
Definition body_chunk (b : string) : list chunk :=
  if nonempty b then [WBody b] else [].

(** The exception that ends [serve_forever] on the events [evs], if any. *)
Fixpoint stop_exn (evs : list loop_event) : option exn :=
  match evs with
  | [] => None
  | (Idle | Connection _ | HandlerFault) :: rest => stop_exn rest
  | Interrupt :: _ => Some KeyboardInterrupt
  | LoopFault e :: _ => Some e
  end.

(** The connections served before the loop stops. *)
Fixpoint connections (evs : list loop_event) : list (list request) :=
  match evs with
  | [] => []
  | Idle :: rest | HandlerFault :: rest => connections rest
  | Connection reqs :: rest => reqs :: connections rest
  | Interrupt :: _ | LoopFault _ :: _ => []
  end.

(** The number of handler exceptions before the loop stops. *)
Fixpoint faults (evs : list loop_event) : nat :=
  match evs with
  | [] => O
  | Idle :: rest | Connection _ :: rest => faults rest
  | HandlerFault :: rest => S (faults rest)
  | Interrupt :: _ | LoopFault _ :: _ => O
  end.

Definition fault_line : string := "Exception occurred during processing of request".


End ExtraDefs.

(** ** Evaluations of the model *)
Module Evaluation.

Example split_ws_ex :
split_ws "GET  /a.txt HTTP/1.0" = ["GET"; "/a.txt"; "HTTP/1.0"].
Proof. reflexivity. Qed.

Example py_int_ex : py_int "1_0" = Some 10%Z /\ py_int "_1" = None
/\ py_int "-3" = Some (-3)%Z.
Proof. repeat split; reflexivity. Qed.

Example dec_ex : dec 404 = "404" /\ dec 0 = "0".
Proof. split; reflexivity. Qed.

Example normpath_ex :
normpath "/a/./b//../c/" = "/a/c" /\ normpath "//x" = "//x"
/\ normpath "///x/.." = "/" /\ normpath "../a" = "../a" /\ normpath "" = ".".
Proof. repeat split; reflexivity. Qed.

Example dirname_ex :
dirname "/srv/mdp/server.py" = "/srv/mdp" /\ dirname "server.py" = ""
/\ dirname "/server.py" = "/".
Proof. repeat split; reflexivity. Qed.

End Evaluation.

(** ** Facts about the string functions *)
Module StrFacts.
Import Props.

Lemma append_assoc (a b c : string) : (a ++ b) ++ c = a ++ (b ++ c).
Proof. induction a; simpl; congruence. Qed.

Lemma append_empty_r (a : string) : a ++ "" = a.
Proof. induction a; simpl; congruence. Qed.

Lemma rev_str_app a b : rev_str (a ++ b) = rev_str b ++ rev_str a.
Proof.
  induction a as [| c a IH]; simpl.
  - rewrite append_empty_r. reflexivity.
  - rewrite IH, append_assoc. reflexivity.
Qed.

Lemma rev_str_involutive s : rev_str (rev_str s) = s.
Proof.
  induction s as [| c s IH]; simpl; [reflexivity |].
  rewrite rev_str_app, IH. reflexivity.
Qed.

Lemma str_forall_app f a b :
  str_forall f (a ++ b) = str_forall f a && str_forall f b.
Proof. induction a; simpl; [reflexivity | rewrite IHa, andb_assoc; reflexivity]. Qed.

Lemma str_forall_rev f s : str_forall f (rev_str s) = str_forall f s.
Proof.
  induction s; simpl; [reflexivity |].
  rewrite str_forall_app, IHs. simpl. rewrite andb_true_r, andb_comm. reflexivity.
Qed.

Lemma nonempty_rev s : nonempty (rev_str s) = nonempty s.
Proof.
  destruct s; simpl; [reflexivity |].
  destruct (rev_str s); reflexivity.
Qed.

Lemma split_on_plain p a :
  str_forall (fun c => negb (p c)) a = true -> split_on p a = [a].
Proof.
  induction a as [| c a IH]; simpl; [reflexivity |].
  intros H. apply andb_prop in H as [Hc Ha].
  rewrite (IH Ha). destruct (p c); [discriminate | reflexivity].
Qed.

Lemma split_on_sep p a c b :
  str_forall (fun c => negb (p c)) a = true -> p c = true ->
  split_on p (a ++ String c b) = a :: split_on p b.
Proof.
  intros Ha Hc. induction a as [| d a IH]; simpl.
  - rewrite Hc. reflexivity.
  - simpl in Ha. apply andb_prop in Ha as [Hd Ha].
    rewrite (IH Ha). destruct (p d); [discriminate | reflexivity].
Qed.

Lemma lstrip_stop p s t :
  nonempty s = true -> str_forall (fun c => negb (p c)) s = true ->
  lstrip p (s ++ t) = s ++ t.
Proof.
  destruct s as [| c s]; simpl; [discriminate |].
  intros _ H. apply andb_prop in H as [Hc _].
  destruct (p c); [discriminate | reflexivity].
Qed.
Lemma str_forall_impl (f g : ascii -> bool) s :
  (forall c, f c = true -> g c = true) ->
  str_forall f s = true -> str_forall g s = true.
Proof.
  intros Hfg. induction s as [| c s IH]; simpl; [reflexivity |].
  intros H. apply andb_prop in H as [Hc Hs]. rewrite (Hfg c Hc), (IH Hs). reflexivity.
Qed.

Lemma crlf_char_space c : Http.crlf_char c = true -> is_space c = true.
Proof.
  unfold Http.crlf_char. intros H. apply orb_prop in H as [H | H];
    apply Ascii.eqb_eq in H; subst; reflexivity.
Qed.

Lemma request_words P V :
  plain P -> plain V ->
  split_ws (rstrip Http.crlf_char ("GET " ++ P ++ " " ++ V ++ Http.crlf))
  = ["GET"; P; V].
Proof.
  intros [HPn HPs] [HVn HVs].
  assert (Hl : "GET " ++ P ++ " " ++ V ++ Http.crlf
               = ("GET " ++ P ++ " ") ++ V ++ Http.crlf).
  { rewrite !append_assoc. reflexivity. }
  unfold rstrip. rewrite Hl, rev_str_app, rev_str_app, append_assoc.
  set (Z := rev_str ("GET " ++ P ++ " ")).
  set (RV := rev_str V).
  assert (Hcut : lstrip Http.crlf_char (rev_str Http.crlf ++ RV ++ Z)
                 = lstrip Http.crlf_char (RV ++ Z)) by reflexivity.
  rewrite Hcut, lstrip_stop.
  2: { unfold RV. rewrite nonempty_rev. exact HVn. }
  2: { unfold RV. rewrite str_forall_rev. revert HVs. apply str_forall_impl.
       intros c Hc. destruct (Http.crlf_char c) eqn:E; [| reflexivity].
       rewrite (crlf_char_space c E) in Hc. discriminate. }
  unfold Z, RV. rewrite rev_str_app, !rev_str_involutive.
  unfold split_ws.
  replace (("GET " ++ P ++ " ") ++ V)
    with ("GET" ++ String " " (P ++ String " " V))
    by (simpl; rewrite append_assoc; reflexivity).
  rewrite split_on_sep by reflexivity.
  rewrite split_on_sep by (assumption || reflexivity).
  rewrite split_on_plain by assumption.
  simpl. rewrite HPn, HVn. reflexivity.
Qed.

Lemma simple_name_spec c :
  simple_name c = true ->
  nonempty c = true /\ str_forall name_char c = true /\ c <> "." /\ c <> "..".
Proof.
  unfold simple_name. intros H.
  apply andb_prop in H as [H H4]. apply andb_prop in H as [H H3].
  apply andb_prop in H as [H1 H2].
  apply negb_true_iff, String.eqb_neq in H3, H4. auto.
Qed.

Lemma name_char_not (a : ascii) :
  name_char a = true ->
  is_space a = false /\ Ascii.eqb a "/" = false /\ Ascii.eqb a "%" = false
  /\ Ascii.eqb a "?" = false /\ Ascii.eqb a "#" = false /\ Ascii.eqb a "000" = false.
Proof.
  unfold name_char. intros H. apply negb_true_iff in H.
  repeat rewrite orb_false_iff in H. tauto.
Qed.

Lemma str_forall_concat f sep l :
  str_forall f sep = true -> Forall (fun x => str_forall f x = true) l ->
  str_forall f (String.concat sep l) = true.
Proof.
  intros Hs Hl. induction Hl as [| x l Hx Hl IH]; [reflexivity |].
  destruct l as [| y l]; [exact Hx |].
  change (String.concat sep (x :: y :: l)) with (x ++ sep ++ String.concat sep (y :: l)).
  rewrite !str_forall_app, Hx, Hs, IH. reflexivity.
Qed.

Lemma before_first_absent c s :
  str_forall (fun a => negb (Ascii.eqb c a)) s = true -> before_first c s = s.
Proof.
  induction s as [| d s IH]; simpl; [reflexivity |].
  intros H. apply andb_prop in H as [Hd Hs].
  apply negb_true_iff in Hd. rewrite Hd, (IH Hs). reflexivity.
Qed.

Lemma contains_absent c s :
  str_forall (fun a => negb (Ascii.eqb c a)) s = true -> contains c s = false.
Proof.
  induction s as [| d s IH]; simpl; [reflexivity |].
  intros H. apply andb_prop in H as [Hd Hs].
  apply negb_true_iff in Hd. rewrite Hd, (IH Hs). reflexivity.
Qed.

Lemma literal_path_last comps :
  comps <> [] -> forallb simple_name comps = true ->
  exists a b, literal_path comps = a ++ b /\ simple_name b = true.
Proof.
  induction comps as [| x l IH]; [congruence |]. intros _ H.
  simpl in H. apply andb_prop in H as [Hx Hl].
  destruct l as [| y l].
  - exists "/", x. split; [reflexivity | exact Hx].
  - destruct (IH ltac:(discriminate) Hl) as [a [b [Hab Hb]]].
    exists ("/" ++ x ++ a), b. split; [| exact Hb].
    unfold literal_path, join in *.
    change (String.concat "/" (x :: y :: l)) with (x ++ "/" ++ String.concat "/" (y :: l)).
    rewrite !append_assoc, <- Hab. reflexivity.
Qed.

Lemma simple_no f b :
  simple_name b = true -> (forall a, name_char a = true -> f a = true) ->
  str_forall f b = true.
Proof.
  intros Hb Hf. apply simple_name_spec in Hb as [_ [Hb _]].
  revert Hb. apply str_forall_impl. exact Hf.
Qed.

Lemma rev_simple_head b :
  simple_name b = true ->
  exists c r, rev_str b = String c r /\ name_char c = true.
Proof.
  intros Hb. pose proof (simple_name_spec b Hb) as [Hn [Hs _]].
  rewrite <- str_forall_rev in Hs. rewrite <- nonempty_rev in Hn.
  destruct (rev_str b) as [| c r]; [discriminate |].
  simpl in Hs. apply andb_prop in Hs as [Hc _]. eauto.
Qed.

Lemma endswith_simple a b :
  simple_name b = true -> endswith "/" (a ++ b) = false.
Proof.
  intros Hb. destruct (rev_simple_head b Hb) as [c [r [Hr Hc]]].
  unfold endswith. rewrite rev_str_app, Hr.
  change (rev_str "/") with "/".
  change (String c r ++ rev_str a) with (String c (r ++ rev_str a)).
  cbn [String.prefix].
  apply name_char_not in Hc as [_ [Hc _]].
  destruct (ascii_dec "/" c) as [E | E]; [| reflexivity].
  subst c. discriminate.
Qed.

Lemma rstrip_simple a b :
  simple_name b = true -> rstrip is_space (a ++ b) = a ++ b.
Proof.
  intros Hb. destruct (rev_simple_head b Hb) as [c [r [Hr Hc]]].
  unfold rstrip. rewrite rev_str_app, Hr. simpl.
  apply name_char_not in Hc as [Hc _]. rewrite Hc.
  change (String c (r ++ rev_str a)) with (String c r ++ rev_str a).
  rewrite <- Hr, <- rev_str_app, rev_str_involutive. reflexivity.
Qed.

Lemma split_on_join comps :
  comps <> [] -> forallb simple_name comps = true ->
  split_on slash (join "/" comps) = comps.
Proof.
  induction comps as [| x l IH]; [congruence |]. intros _ H.
  simpl in H. apply andb_prop in H as [Hx Hl].
  assert (Hxs : str_forall (fun c => negb (slash c)) x = true).
  { apply simple_no; [exact Hx |]. intros a Ha.
    apply name_char_not in Ha as [_ [Ha _]]. unfold slash, is_char.
    rewrite Ha. reflexivity. }
  destruct l as [| y l].
  - apply split_on_plain, Hxs.
  - unfold join. change (String.concat "/" (x :: y :: l))
      with (x ++ String "/" (String.concat "/" (y :: l))).
    rewrite split_on_sep by (exact Hxs || reflexivity).
    f_equal. apply IH; [discriminate | exact Hl].
Qed.

Lemma norm_fold_simple n comps acc :
  forallb simple_name comps = true ->
  fold_left (norm_step n) comps acc = app (rev comps) acc.
Proof.
  revert acc. induction comps as [| x l IH]; intros acc H; [reflexivity |].
  simpl in H. apply andb_prop in H as [Hx Hl].
  pose proof (simple_name_spec x Hx) as [Hn [_ [H1 H2]]].
  simpl. rewrite IH by exact Hl. rewrite <- app_assoc. simpl. f_equal.
  unfold norm_step.
  destruct x as [| c r]; [discriminate |].
  apply String.eqb_neq in H1, H2. rewrite H1, H2. reflexivity.
Qed.

Lemma dirname_simple x : simple_name x = true -> dirname x = "".
Proof.
  intros Hx. unfold dirname.
  assert (Hd : forall s, str_forall (fun c => negb (Ascii.eqb c "/")) s = true ->
                         drop_to_slash s = "").
  { induction s as [| c s IH]; simpl; [reflexivity |].
    intros H. apply andb_prop in H as [Hc Hs]. apply negb_true_iff in Hc.
    rewrite Hc. apply IH, Hs. }
  rewrite Hd; [reflexivity |].
  rewrite str_forall_rev. apply simple_no; [exact Hx |].
  intros a Ha. apply name_char_not in Ha as [_ [Ha _]]. rewrite Ha. reflexivity.
Qed.

Lemma literal_forall f comps :
  forallb simple_name comps = true ->
  (forall a, name_char a = true -> f a = true) -> f "/"%char = true ->
  str_forall f (literal_path comps) = true.
Proof.
  intros H Hf Hs. unfold literal_path. simpl. rewrite Hs. simpl.
  apply str_forall_concat; [simpl; rewrite Hs; reflexivity |].
  apply Forall_forall. intros x Hx. apply forallb_forall with (x := x) in H; [| exact Hx].
  apply simple_no; assumption.
Qed.

Lemma filter_all {A} (f : A -> bool) l :
  forallb f l = true -> filter f l = l.
Proof.
  induction l as [| x l IH]; simpl; [reflexivity |].
  intros H. apply andb_prop in H as [Hx Hl]. rewrite Hx, (IH Hl). reflexivity.
Qed.

End StrFacts.

(** ** Every header block ends with the injected lines *)
Module HeaderInjection.
Import Http Props.

Create HintDb pres.

Lemma pres_ret {A} (a : A) : preserves (ret a).
Proof. intros s Hs. exact Hs. Qed.

Lemma pres_bind {A B} (m : HM A) (k : A -> HM B) :
  preserves m -> (forall a, preserves (k a)) -> preserves (bind m k).
Proof.
  intros Hm Hk s Hs. unfold bind.
  specialize (Hm s Hs). destruct (m s) as [a s']. apply Hk, Hm.
Qed.

Lemma pres_gets {A} (f : hstate -> A) : preserves (gets f).
Proof. intros s Hs. exact Hs. Qed.

Lemma pres_modify (f : hstate -> hstate) :
  (forall s, wfile (f s) = wfile s) -> preserves (modify f).
Proof. intros Hf s Hs. unfold inv in *. simpl. rewrite Hf. exact Hs. Qed.

Lemma pres_write b : preserves (write_body b).
Proof.
  intros s Hs. unfold inv in *. simpl.
  apply Forall_app. split; [exact Hs | repeat constructor].
Qed.

Ltac pres_step :=
  cbv beta zeta;
  match goal with
  | |- preserves (bind _ _) => apply pres_bind; [ | intro ]
  | |- preserves (ret _) => apply pres_ret
  | |- preserves (gets _) => apply pres_gets
  | |- preserves (modify _) => apply pres_modify; intro; reflexivity
  | |- preserves (if ?b then _ else _) => destruct b
  | |- preserves (match ?x with _ => _ end) => destruct x
  | |- preserves _ => solve [ eauto with pres ]
  end.

Ltac pres := repeat pres_step.

Lemma pres_not_http09 : preserves not_http09.
Proof. apply pres_gets. Qed.

Lemma pres_send_header k v : preserves (send_header k v).
Proof. unfold send_header, not_http09. pres. Qed.
Global Hint Resolve pres_write pres_send_header : pres.

Lemma pres_send_response_only code msg :
  preserves (send_response_only code msg).
Proof. unfold send_response_only, not_http09. pres. Qed.
Global Hint Resolve pres_send_response_only : pres.

Lemma pres_send_response lib code msg :
  preserves (send_response lib code msg).
Proof. unfold send_response. pres. Qed.
Global Hint Resolve pres_send_response : pres.

(** The override writes the buffer with the three lines and the blank
    line at its end. *)
Lemma pres_my_end_headers : preserves my_end_headers.
Proof.
  intros s Hs. destruct s as [d v c p h cl buf w].
  unfold inv in *. simpl in *.
  unfold my_end_headers, send_header, base_end_headers, flush_headers,
    not_http09, bind, gets, modify, ret; simpl.
  destruct (v =? "HTTP/0.9") eqn:Ev; do 4 (rewrite ?Ev; simpl); [exact Hs |].
  apply Forall_app. split; [exact Hs |].
  constructor; [| constructor].
  exists buf. rewrite <- !app_assoc. reflexivity.
Qed.

Section WithEndHeaders.
Variable lib : Lib.
Variable fs : FS.
Variable eh : HM unit.
Hypothesis Heh : preserves eh.
Local Hint Resolve Heh : pres.

Lemma pres_send_error code m e : preserves (send_error lib eh code m e).
Proof. unfold send_error. pres. Qed.
Local Hint Resolve pres_send_error : pres.

Lemma pres_list_directory t : preserves (list_directory lib fs eh t).
Proof. unfold list_directory. pres. Qed.
Local Hint Resolve pres_list_directory : pres.

Lemma pres_send_file t : preserves (send_file lib fs eh t).
Proof. unfold send_file, handler_exception. pres. Qed.
Local Hint Resolve pres_send_file : pres.

Lemma pres_send_head : preserves (send_head lib fs eh).
Proof. unfold send_head. pres. Qed.
Local Hint Resolve pres_send_head : pres.

Lemma pres_do_GET : preserves (do_GET lib fs eh).
Proof. unfold do_GET. pres. Qed.

Lemma pres_do_HEAD : preserves (do_HEAD lib fs eh).
Proof. unfold do_HEAD. pres. Qed.
Local Hint Resolve pres_do_GET pres_do_HEAD : pres.

Lemma pres_parse_request_rest words hr :
  preserves (parse_request_rest lib eh words hr).
Proof. unfold parse_request_rest, handle_expect_100. pres. Qed.
Local Hint Resolve pres_parse_request_rest : pres.

Lemma pres_parse_request raw hr : preserves (parse_request lib eh raw hr).
Proof. unfold parse_request. pres. Qed.
Local Hint Resolve pres_parse_request : pres.

Lemma pres_handle_one_request r : preserves (handle_one_request lib fs eh r).
Proof. unfold handle_one_request. pres. Qed.
End WithEndHeaders.

Lemma pres_handle lib fs reqs : preserves (handle lib fs reqs).
Proof.
  unfold handle. apply pres_bind; [apply pres_modify; reflexivity | intros _].
  induction reqs as [| r rest IH]; cbn [handle_loop]; unfold my_handle_one_request.
  - apply pres_handle_one_request, pres_my_end_headers.
  - apply pres_bind; [apply pres_handle_one_request, pres_my_end_headers |].
    intros _. apply pres_bind; [apply pres_gets |].
    intros c. destruct c; [apply pres_ret | exact IH].
Qed.

(** Every header block written on a connection ends with the three
    injected lines and the blank line. *)
Lemma serve_connection_blocks lib fs dir reqs l :
  In (WHeaders l) (serve_connection lib fs dir reqs) ->
  exists pre, l = app pre (app cors_lines [crlf]).
Proof.
  intros Hin.
  assert (Hinv : inv (snd (handle lib fs reqs (init_handler dir)))).
  { apply pres_handle. constructor. }
  unfold serve_connection, inv in *.
  rewrite Forall_forall in Hinv. exact (Hinv _ Hin).
Qed.

(** The last four lines of a block are the three injected lines and the
    blank line. *)
Lemma block_suffix lib fs dir reqs l :
  In (WHeaders l) (serve_connection lib fs dir reqs) ->
  skipn (length l - 4) l = app cors_lines [crlf].
Proof.
  intros Hin. destruct (serve_connection_blocks lib fs dir reqs l Hin) as [pre ->].
  rewrite length_app. cbn [length cors_lines app].
  replace (length pre + 4 - 4)%nat with (length pre) by lia.
  rewrite skipn_app, skipn_all, Nat.sub_diag. reflexivity.
Qed.

End HeaderInjection.

(** ** A [GET] of a literal path, step by step *)
Module GetPath.
Import Http Props StrFacts.

Lemma translate_literal lib d comps :
  comps <> [] -> forallb simple_name comps = true ->
  Http.translate_path lib d (literal_path comps) = Http.mkT d comps false.
Proof.
  intros Hne Hs. unfold Http.translate_path.
  rewrite (before_first_absent "?" (literal_path comps)).
  2: { apply literal_forall; [exact Hs | | reflexivity].
       intros a Ha. apply name_char_not in Ha. rewrite Ascii.eqb_sym. 
       destruct Ha as [_ [_ [_ [Ha _]]]]. rewrite Ha. reflexivity. }
  rewrite before_first_absent.
  2: { apply literal_forall; [exact Hs | | reflexivity].
       intros a Ha. apply name_char_not in Ha. rewrite Ascii.eqb_sym.
       destruct Ha as [_ [_ [_ [_ [Ha _]]]]]. rewrite Ha. reflexivity. }
  rewrite contains_absent.
  2: { apply literal_forall; [exact Hs | | reflexivity].
       intros a Ha. apply name_char_not in Ha. rewrite Ascii.eqb_sym.
       destruct Ha as [_ [_ [Ha _]]]. rewrite Ha. reflexivity. }
  destruct (literal_path_last comps Hne Hs) as [a [b [Hab Hb]]].
  assert (Htr : endswith "/" (rstrip is_space (literal_path comps)) = false).
  { rewrite Hab, rstrip_simple, endswith_simple by exact Hb. reflexivity. }
  rewrite Htr. clear a b Hab Hb Htr.
  assert (Hn : normpath (literal_path comps) = literal_path comps).
  { destruct comps as [| x l]; [congruence |].
    pose proof Hs as Hs'. simpl in Hs'. apply andb_prop in Hs' as [Hx _].
    destruct x as [| c r] eqn:Ex; [discriminate |].
    assert (Hc : name_char c = true).
    { apply simple_name_spec in Hx as [_ [Hx _]]. simpl in Hx.
      apply andb_prop in Hx as [Hc _]. exact Hc. }
    unfold normpath, literal_path.
    set (J := join "/" (String c r :: l)).
    assert (HJ : exists t, J = String c t).
    { unfold J, join. destruct l as [| y l]; [exists r; reflexivity |].
      exists (r ++ "/" ++ String.concat "/" (y :: l)). reflexivity. }
    destruct HJ as [t HJt].
    change ("/" ++ J) with (String "/" J).
    rewrite HJt. cbn [String.eqb startswith String.prefix].
    destruct (ascii_dec "/" "/") as [_ | E]; [| congruence].
    destruct (ascii_dec "/" c) as [E | _].
    { subst c. apply name_char_not in Hc. destruct Hc as [_ [Hc _]]. discriminate. }
    cbn -[String.concat rev fold_left split_on].
    change (split_on slash (String "/" (String c t)))
      with ("" :: split_on slash (String c t)).
    cbn [fold_left]. change (norm_step 1 [] "") with (@nil string).
    rewrite <- HJt. unfold J. rewrite split_on_join by (discriminate || exact Hs).
    rewrite norm_fold_simple by exact Hs.
    rewrite app_nil_r, rev_involutive. reflexivity. }
  rewrite Hn. unfold literal_path at 1.
  change ("/" ++ join "/" comps) with (String "/" (join "/" comps)).
  cbn [split_on]. change (slash "/") with true. cbv iota.
  rewrite split_on_join by assumption.
  cbn [filter nonempty].
  rewrite (filter_all nonempty comps).
  2: { apply forallb_forall. intros x Hx. apply forallb_forall with (x := x) in Hs;
       [| exact Hx]. apply simple_name_spec in Hs. apply Hs. }
  rewrite filter_all; [reflexivity |].
  apply forallb_forall. intros x Hx. apply forallb_forall with (x := x) in Hs;
    [| exact Hx].
  rewrite dirname_simple by exact Hs.
  apply simple_name_spec in Hs as [_ [_ [H1 H2]]].
  apply String.eqb_neq in H1, H2. rewrite H1, H2. reflexivity.
Qed.
Lemma parse_request_get lib eh P V hs maj mn s :
  plain P -> plain V -> parse_version V = Some (maj, mn) -> (maj < 2)%Z ->
  exists s1,
    parse_request lib eh ("GET " ++ P ++ " " ++ V ++ crlf) (HeadersOk hs) s = (true, s1)
    /\ request_version s1 = V /\ command s1 = Some "GET"
    /\ req_path s1 = collapse_slashes P /\ req_headers s1 = hs
    /\ headers_buffer s1 = headers_buffer s /\ wfile s1 = wfile s
    /\ directory s1 = directory s /\ close_connection s1 = true.
Proof.
  intros HP HV Hv Hm.
  unfold parse_request. cbv zeta.
  rewrite request_words by assumption.
  unfold bind, modify, gets, ret. cbn -[send_error].
  rewrite Hv, andb_false_r.
  replace ((2 <? maj)%Z || ((maj =? 2)%Z && (0 <=? mn)%Z)) with false
    by (symmetry; apply orb_false_iff; split;
        [apply Z.ltb_ge; lia | apply andb_false_iff; left; apply Z.eqb_neq; lia]).
  cbn -[send_error].
  rewrite !andb_false_r. cbn [andb].
  unfold bind, modify, gets, ret.
  destruct (lower (hget "Connection" hs "") =? "close");
    (eexists; split; [reflexivity | destruct s; repeat split; reflexivity]).
Qed.

Lemma handle_one_request_get lib fs eh P V hs maj mn s :
  plain P -> plain V -> parse_version V = Some (maj, mn) -> (maj < 2)%Z ->
  (String.length ("GET " ++ P ++ " " ++ V ++ crlf) <= 65536)%nat ->
  exists s1,
    handle_one_request lib fs eh (mkRequest ("GET " ++ P ++ " " ++ V ++ crlf) (HeadersOk hs)) s
    = do_GET lib fs eh s1
    /\ request_version s1 = V /\ command s1 = Some "GET"
    /\ req_path s1 = collapse_slashes P /\ req_headers s1 = hs
    /\ headers_buffer s1 = headers_buffer s /\ wfile s1 = wfile s
    /\ directory s1 = directory s /\ close_connection s1 = true.
Proof.
  intros HP HV Hv Hm Hlen.
  destruct (parse_request_get lib eh P V hs maj mn s HP HV Hv Hm)
    as [s1 [Hpr Hs1]].
  exists s1. split; [| exact Hs1].
  destruct Hs1 as [_ [Hc _]].
  unfold handle_one_request. cbn [raw_requestline raw_headers].
  replace (65536 <? String.length ("GET " ++ P ++ " " ++ V ++ crlf))%nat with false
    by (symmetry; apply Nat.ltb_ge; exact Hlen).
  replace (nonempty ("GET " ++ P ++ " " ++ V ++ crlf)) with true by reflexivity.
  cbn [negb].
  unfold bind at 1. rewrite Hpr. cbn [negb].
  unfold bind, gets. rewrite Hc. reflexivity.
Qed.

Lemma tp_string_no_slash d comps :
  comps <> [] -> forallb simple_name comps = true ->
  endswith "/" (tp_string (mkT d comps false)) = false.
Proof.
  intros Hne Hs. unfold tp_string. cbn [tp_comps tp_dir tp_slash].
  rewrite append_empty_r.
  destruct (exists_last Hne) as [l [x Hx]]. subst comps.
  rewrite fold_left_app. cbn [fold_left].
  rewrite forallb_app in Hs. apply andb_prop in Hs as [_ Hx].
  simpl in Hx. rewrite andb_true_r in Hx.
  unfold pjoin. destruct (startswith "/" x).
  - apply (endswith_simple "" x Hx).
  - destruct (_ || _); [apply endswith_simple, Hx |].
    rewrite <- append_assoc. apply endswith_simple, Hx.
Qed.

Lemma join_head c r l : exists t, join "/" (String c r :: l) = String c t.
Proof.
  unfold join. destruct l as [| y l]; [exists r; reflexivity |].
  exists (r ++ "/" ++ String.concat "/" (y :: l)). reflexivity.
Qed.

Lemma collapse_literal comps :
  comps <> [] -> forallb simple_name comps = true ->
  collapse_slashes (literal_path comps) = literal_path comps.
Proof.
  intros Hne Hs. destruct comps as [| x l]; [congruence |].
  simpl in Hs. apply andb_prop in Hs as [Hx _].
  apply simple_name_spec in Hx as [Hn [Hf _]].
  destruct x as [| c r]; [discriminate |].
  simpl in Hf. apply andb_prop in Hf as [Hc _].
  apply name_char_not in Hc as [_ [Hc _]].
  destruct (join_head c r l) as [t Ht].
  unfold collapse_slashes, literal_path, startswith.
  rewrite Ht. change ("/" ++ String c t) with (String "/" (String c t)).
  cbn [String.prefix].
  destruct (ascii_dec "/" "/") as [_ | E]; [| congruence].
  destruct (ascii_dec "/" c) as [E | _]; [subst c; discriminate | reflexivity].
Qed.

Lemma ok200_trace lib ct cl lm (x : option string) s :
  (request_version s =? "HTTP/0.9") = false ->
  (send_response lib 200 None ;;
   send_header "Content-type" ct ;;
   send_header "Content-Length" cl ;;
   send_header "Last-Modified" lm ;;
   my_end_headers ;; ret x) s
  = (x, set_buffer [] (set_wfile (app (wfile s)
          [WHeaders (app (headers_buffer s) (ok200_lines lib ct cl lm))]) s)).
Proof.
  intros Ev. destruct s as [dir rv cmd p hs cl0 buf w]. cbn [request_version] in Ev.
  unfold send_response, my_end_headers, send_response_only, send_header,
    base_end_headers, flush_headers, not_http09, bind, ret, gets, modify.
  simpl. repeat (rewrite Ev; simpl).
  unfold ok200_lines. simpl. rewrite <- !app_assoc. reflexivity.
Qed.


(** Literal components bring no NUL into the path. *)
Lemma literal_no_nul d comps sl :
  forallb simple_name comps = true -> path_has_nul (mkT d comps sl) = false.
Proof.
  intros Hs. unfold path_has_nul. cbn [tp_comps].
  induction comps as [| x l IH]; [reflexivity |].
  simpl in Hs. apply andb_prop in Hs as [Hx Hl]. simpl. rewrite (IH Hl).
  unfold has_nul. rewrite contains_absent; [reflexivity |].
  apply simple_no; [exact Hx |].
  intros a Ha. apply name_char_not in Ha as [_ [_ [_ [_ [_ Ha]]]]].
  rewrite Ascii.eqb_sym, Ha. reflexivity.
Qed.



Section CharsPreserved.
Variable f : ascii -> bool.
Hypothesis f_slash : f "/"%char = true.
Hypothesis f_dot : f "."%char = true.
Local Notation F s := (str_forall f s = true).









End CharsPreserved.


Lemma send_head_file lib fs eh comps c m s :
  comps <> [] -> forallb simple_name comps = true ->
  fs (directory s) comps = Some (File true c m) ->
  req_path s = literal_path comps ->
  send_head lib fs eh s = send_file lib fs eh (mkT (directory s) comps false) s.
Proof.
  intros Hne Hs Hfs Hp. unfold send_head, bind, gets.
  rewrite Hp, translate_literal by assumption. cbn [tp_comps]. rewrite Hfs.
  destruct (path_has_nul _); reflexivity.
Qed.

Lemma send_file_200 lib fs eh t c m s :
  endswith "/" (tp_string t) = false -> path_has_nul t = false ->
  fs (tp_dir t) (tp_comps t) = Some (File true c m) ->
  hhas "If-Modified-Since" (req_headers s) = false ->
  send_file lib fs eh t s =
  (send_response lib 200 None ;;
   send_header "Content-type" (guess_type lib (tp_string t)) ;;
   send_header "Content-Length" (dec (String.length c)) ;;
   send_header "Last-Modified" (date_of lib m) ;;
   eh ;; ret (Some c)) s.
Proof.
  intros He Hn Hfs Hh. unfold send_file. cbv zeta. rewrite He, Hn, Hfs.
  unfold bind at 1, gets. rewrite Hh. reflexivity.
Qed.


Lemma literal_plain comps :
  forallb simple_name comps = true -> plain (literal_path comps).
Proof.
  intros Hs. split; [reflexivity |].
  apply literal_forall; [exact Hs | | reflexivity].
  intros a Ha. apply name_char_not in Ha as [Ha _]. rewrite Ha. reflexivity.
Qed.


Lemma err404_trace lib s :
  (request_version s =? "HTTP/0.9") = false ->
  exists rest tail,
    let s' := snd (send_error lib my_end_headers 404 (Some "File not found") None s) in
    wfile s' = app (wfile s)
      (WHeaders (app (headers_buffer s)
                   ((protocol_version ++ " 404 File not found" ++ crlf) :: rest))
       :: tail)
    /\ close_connection s' = true.
Proof.
  intros Ev. destruct s as [dir rv cmd p hs cl0 buf w]. cbn [request_version] in Ev.
  unfold send_error, send_response, my_end_headers, send_response_only, send_header,
    base_end_headers, flush_headers, not_http09, write_body, bind, ret, gets, modify.
  simpl. repeat (rewrite Ev; simpl).
  destruct (_ && _ && _); simpl; eexists _, _;
    (split; [rewrite <- !app_assoc; simpl; reflexivity | reflexivity]).
Qed.



End GetPath.

(** ** The script: frame properties of [main] *)
Module ScriptFacts.
Import Http Script Props.

Lemma main_listening lib fs ev :
  port_in_use ev = false ->
  main lib fs ev (init_world ev)
  = with_stmt server_close
      (print_all banner ;;;
       try_except_kbi (serve_forever lib fs (events ev)) (print shutdown_message))
      (listening_world ev).
Proof.
  intros Hp. unfold main, tcp_server, sbind, sgets, supdate. rewrite Hp. reflexivity.
Qed.

Lemma main_in_use lib fs ev :
  port_in_use ev = true ->
  main lib fs ev (init_world ev)
  = (Raised (OSError 98 "Address already in use"),
     mkW (script_dir ev) [] [] SockClosed (Some ("", PORT)) []).
Proof.
  intros Hp. unfold main, tcp_server, sbind, sgets, supdate, raise, server_close.
  rewrite Hp. reflexivity.
Qed.

Lemma print_all_spec ls w :
  print_all ls w
  = (Done tt, mkW (cwd w) (app (stdout w) ls) (stderr w) (sock w) (bound w) (served w)).
Proof.
  revert w. induction ls as [| l rest IH]; intros w; simpl.
  - rewrite app_nil_r. destruct w; reflexivity.
  - unfold sbind, print, supdate. rewrite IH. simpl. rewrite <- app_assoc. reflexivity.
Qed.

Lemma serve_forever_frame lib fs evs w :
  let '(o, w') := serve_forever lib fs evs w in
  cwd w' = cwd w /\ stdout w' = stdout w /\ sock w' = sock w /\ bound w' = bound w
  /\ (forall d out, In (d, out) (served w') -> In (d, out) (served w) \/ d = cwd w).
Proof.
  revert w. induction evs as [| e rest IH]; intros w.
  - simpl. unfold running. repeat split; auto.
  - destruct e; simpl; unfold raise, sbind, sgets, supdate;
      try (repeat split; auto; fail).
    + specialize (IH w). destruct (serve_forever lib fs rest w). exact IH.
    + specialize (IH (add_served (cwd w, serve_connection lib fs (cwd w) reqs) w)).
      destruct (serve_forever lib fs rest _) as [o w'].
      destruct IH as [H1 [H2 [H3 [H4 H5]]]]. simpl in *.
      repeat split; auto. intros d out Hin.
      destruct (H5 d out Hin) as [Hin' | Hd]; [| auto].
      apply in_app_or in Hin' as [Hin' | [Heq | []]]; [auto |].
      injection Heq as -> _. auto.
    + specialize (IH (add_stderr "Exception occurred during processing of request" w)).
      destruct (serve_forever lib fs rest _) as [o w'].
      destruct IH as [H1 [H2 [H3 [H4 H5]]]]. simpl in *. auto.
Qed.

Lemma serve_forever_interrupt lib fs pre w :
  forallb continues pre = true ->
  exists w', (forall post, serve_forever lib fs (app pre (Interrupt :: post)) w
                           = (Raised KeyboardInterrupt, w')).
Proof.
  revert w. induction pre as [| e rest IH]; intros w Hc.
  - exists w. reflexivity.
  - simpl in Hc. apply andb_prop in Hc as [He Hr].
    destruct e; try discriminate; simpl; unfold sbind, sgets, supdate; apply IH, Hr.
Qed.

Lemma with_close {A} (body : SM A) w :
  with_stmt server_close body w
  = match body w with
    | (Done a, w') => (Done a, set_sock SockClosed w')
    | (Raised e, w') => (Raised e, set_sock SockClosed w')
    | (Running, w') => (Running, w')
    end.
Proof. unfold with_stmt. destruct (body w) as [[a | e |] w']; reflexivity. Qed.

Lemma body_frame lib fs ev w :
  let '(o, w') := serving_body lib fs ev w in
  cwd w' = cwd w /\ bound w' = bound w
  /\ (forall d out, In (d, out) (served w') -> In (d, out) (served w) \/ d = cwd w).
Proof.
  unfold serving_body, sbind, try_except_kbi. rewrite print_all_spec.
  set (w1 := mkW _ _ _ _ _ _).
  pose proof (serve_forever_frame lib fs (events ev) w1) as H.
  destruct (serve_forever lib fs (events ev) w1) as [o w'].
  destruct H as [H1 [_ [_ [H4 H5]]]].
  assert (G : cwd w' = cwd w /\ bound w' = bound w
             /\ (forall d out, In (d, out) (served w') -> In (d, out) (served w) \/ d = cwd w))
    by (subst w1; simpl in *; auto).
  destruct o as [[] | [] |]; auto.
Qed.

Lemma run_frame lib fs ev :
  let '(st, w) := run lib fs ev in
  cwd w = script_dir ev /\ bound w = Some ("", PORT)
  /\ (forall d out, In (d, out) (served w) -> d = script_dir ev).
Proof.
  unfold run. destruct (port_in_use ev) eqn:Hp.
  - rewrite main_in_use by exact Hp. simpl. repeat split; auto.
    intros d out [].
  - rewrite main_listening by exact Hp. rewrite with_close.
    fold (serving_body lib fs ev).
    pose proof (body_frame lib fs ev (listening_world ev)) as H.
    destruct (serving_body lib fs ev (listening_world ev)) as [o w'].
    destruct H as [H1 [H2 H3]]. simpl in H1, H2.
    assert (H3' : forall d out, In (d, out) (served w') -> d = script_dir ev)
      by (intros d out Hin; destruct (H3 d out Hin) as [[] | Hd]; exact Hd).
    destruct o as [a | [] |]; simpl; auto.
Qed.

Lemma body_interrupt lib fs pre w :
  forallb continues pre = true ->
  exists w', forall ev post, events ev = app pre (Interrupt :: post) ->
    serving_body lib fs ev w = (Done tt, add_stdout shutdown_message w').
Proof.
  intros Hc. unfold serving_body, sbind, try_except_kbi. rewrite print_all_spec.
  destruct (serve_forever_interrupt lib fs pre
              (mkW (cwd w) (app (stdout w) banner) (stderr w) (sock w) (bound w) (served w))
              Hc) as [w' Hw'].
  exists w'. intros ev post He. rewrite He, Hw'. reflexivity.
Qed.

End ScriptFacts.

(** ** The properties of server.py *)
Module Claims.
Import Http Script Props StrFacts HeaderInjection GetPath ScriptFacts.

(** C1 (amended): every header block the handler of server.py writes, on
    any connection, for any requests, files and library helpers, contains
    the three lines [Access-Control-Allow-Origin: *],
    [Cross-Origin-Embedder-Policy: require-corp] and
    [Cross-Origin-Opener-Policy: same-origin]. *)
Theorem c1_every_header_block_has_cors lib fs dir reqs l :
  In (WHeaders l) (serve_connection lib fs dir reqs) ->
  In ("Access-Control-Allow-Origin: *" ++ crlf) l
  /\ In ("Cross-Origin-Embedder-Policy: require-corp" ++ crlf) l
  /\ In ("Cross-Origin-Opener-Policy: same-origin" ++ crlf) l.
Proof.
  intros Hin. destruct (serve_connection_blocks lib fs dir reqs l Hin) as [pre ->].
  repeat split; apply in_or_app; right; simpl; auto.
Qed.

Lemma c1_witness :
  exists l, In (WHeaders l) (serve_connection Demo.lib Demo.fs Demo.root
                               [Demo.req "GET /a.txt HTTP/1.0"])
  /\ In ("Access-Control-Allow-Origin: *" ++ crlf) l
  /\ In ("Cross-Origin-Embedder-Policy: require-corp" ++ crlf) l
  /\ In ("Cross-Origin-Opener-Policy: same-origin" ++ crlf) l.
Proof.
  destruct (serve_connection Demo.lib Demo.fs Demo.root [Demo.req "GET /a.txt HTTP/1.0"])
    as [| [l | b] rest] eqn:E; try (vm_compute in E; discriminate).
  exists l.
  assert (Hin : In (WHeaders l) (serve_connection Demo.lib Demo.fs Demo.root
                                   [Demo.req "GET /a.txt HTTP/1.0"]))
    by (rewrite E; left; reflexivity).
  split; [left; reflexivity |].
  exact (c1_every_header_block_has_cors Demo.lib Demo.fs Demo.root _ l Hin).
Defined.

(** C1 counterexample: a request the library treats as HTTP/0.9 (a
    two-word request line) and a request rejected with 505 before its
    version is taken get a body and no header block at all. *)
Lemma c1_counterexample :
  serve_connection Demo.lib Demo.fs Demo.root [Demo.req "GET /a.txt"]
  = [WBody "hello"]
  /\ serve_connection Demo.lib Demo.fs Demo.root [Demo.req "GET /a.txt HTTP/2.0"]
     = [WBody "<h1>Error 505</h1>"].
Proof. split; vm_compute; reflexivity. Qed.







(** C4: in every header block the handler writes, the three injected
    lines come last, after every header the library put in the buffer, and
    only the blank line ending the block follows them. *)
Theorem c4_cors_appended_last lib fs dir reqs l :
  In (WHeaders l) (serve_connection lib fs dir reqs) ->
  exists pre, l = app pre (app cors_lines [crlf]).
Proof. exact (serve_connection_blocks lib fs dir reqs l). Qed.

Lemma c4_witness :
  exists l pre, In (WHeaders l) (serve_connection Demo.lib Demo.fs Demo.root
                                   [Demo.req "GET /missing HTTP/1.0"])
  /\ l = app pre (app cors_lines [crlf]).
Proof.
  destruct (serve_connection Demo.lib Demo.fs Demo.root [Demo.req "GET /missing HTTP/1.0"])
    as [| [l | b] rest] eqn:E; try (vm_compute in E; discriminate).
  assert (Hin : In (WHeaders l) (serve_connection Demo.lib Demo.fs Demo.root
                                   [Demo.req "GET /missing HTTP/1.0"]))
    by (rewrite E; left; reflexivity).
  destruct (c4_cors_appended_last Demo.lib Demo.fs Demo.root _ l Hin) as [pre Hpre].
  exists l, pre. split; [left; reflexivity | exact Hpre].
Defined.

(** C9: for any two header blocks, written on any two connections for any
    requests (paths, methods, headers), files and library helpers, the
    last four lines are the same: the three injected lines and the blank
    line. *)
Theorem c9_injection_request_independent lib1 fs1 d1 reqs1 l1 lib2 fs2 d2 reqs2 l2 :
  In (WHeaders l1) (serve_connection lib1 fs1 d1 reqs1) ->
  In (WHeaders l2) (serve_connection lib2 fs2 d2 reqs2) ->
  skipn (length l1 - 4) l1 = skipn (length l2 - 4) l2
  /\ skipn (length l1 - 4) l1 = app cors_lines [crlf].
Proof.
  intros H1 H2.
  rewrite (block_suffix lib1 fs1 d1 reqs1 l1 H1), (block_suffix lib2 fs2 d2 reqs2 l2 H2).
  split; reflexivity.
Qed.

Lemma c9_witness :
  exists l1 l2,
    In (WHeaders l1) (serve_connection Demo.lib Demo.fs Demo.root
                        [Demo.req "GET /a.txt HTTP/1.0"])
    /\ In (WHeaders l2) (serve_connection Demo.lib Demo.fs Demo.root
                          [Demo.req "HEAD /missing HTTP/1.1"])
    /\ skipn (length l1 - 4) l1 = skipn (length l2 - 4) l2.
Proof.
  destruct (serve_connection Demo.lib Demo.fs Demo.root [Demo.req "GET /a.txt HTTP/1.0"])
    as [| [l1 | b1] rest1] eqn:E1; try (vm_compute in E1; discriminate).
  destruct (serve_connection Demo.lib Demo.fs Demo.root [Demo.req "HEAD /missing HTTP/1.1"])
    as [| [l2 | b2] rest2] eqn:E2; try (vm_compute in E2; discriminate).
  assert (H1 : In (WHeaders l1) (serve_connection Demo.lib Demo.fs Demo.root
                                   [Demo.req "GET /a.txt HTTP/1.0"]))
    by (rewrite E1; left; reflexivity).
  assert (H2 : In (WHeaders l2) (serve_connection Demo.lib Demo.fs Demo.root
                                   [Demo.req "HEAD /missing HTTP/1.1"]))
    by (rewrite E2; left; reflexivity).
  exists l1, l2. split; [left; reflexivity |]. split; [left; reflexivity |].
  exact (proj1 (c9_injection_request_independent _ _ _ _ l1 _ _ _ _ l2 H1 H2)).
Defined.

(** C5: when the accept loop, after any number of events it goes on from
    (timeouts, served connections, handler errors), receives SIGINT, the
    process prints the shutdown message as its last line of output, closes
    the listening socket and exits with status 0; the events that would
    have followed are never processed. *)
Theorem c5_interrupt_exits_0 lib fs ev pre post :
  port_in_use ev = false -> events ev = app pre (Interrupt :: post) ->
  forallb continues pre = true ->
  fst (run lib fs ev) = Exit 0
  /\ last (stdout (snd (run lib fs ev))) "" = shutdown_message
  /\ sock (snd (run lib fs ev)) = SockClosed
  /\ run lib fs ev = run lib fs (set_events (app pre [Interrupt]) ev).
Proof.
  intros Hp He Hc.
  destruct (body_interrupt lib fs pre (listening_world ev) Hc) as [w' Hw'].
  assert (Hr : forall ev', port_in_use ev' = false -> script_dir ev' = script_dir ev ->
               (exists post', events ev' = app pre (Interrupt :: post')) ->
               run lib fs ev' = (Exit 0, set_sock SockClosed (add_stdout shutdown_message w'))).
  { intros ev' Hp' Hd [post' He']. unfold run.
    rewrite main_listening by exact Hp'. rewrite with_close.
    fold (serving_body lib fs ev').
    unfold listening_world. rewrite Hd. fold (listening_world ev).
    rewrite (Hw' ev' post' He'). reflexivity. }
  rewrite (Hr ev Hp eq_refl ltac:(exists post; exact He)).
  rewrite (Hr (set_events (app pre [Interrupt]) ev) Hp eq_refl
             ltac:(exists []; reflexivity)).
  cbn [fst snd set_sock add_stdout sock stdout].
  repeat split. rewrite last_last. reflexivity.
Qed.

Lemma c5_witness :
  let ev := Demo.proc false [Connection [Demo.req "GET /a.txt HTTP/1.0"]; Idle; Interrupt;
                             Connection [Demo.req "GET / HTTP/1.0"]] in
  fst (run Demo.lib Demo.fs ev) = Exit 0
  /\ last (stdout (snd (run Demo.lib Demo.fs ev))) "" = shutdown_message
  /\ sock (snd (run Demo.lib Demo.fs ev)) = SockClosed
  /\ run Demo.lib Demo.fs ev
     = run Demo.lib Demo.fs (set_events (app [Connection [Demo.req "GET /a.txt HTTP/1.0"]; Idle]
                                             [Interrupt]) ev).
Proof.
  apply (c5_interrupt_exits_0 Demo.lib Demo.fs _
           [Connection [Demo.req "GET /a.txt HTTP/1.0"]; Idle]
           [Connection [Demo.req "GET / HTTP/1.0"]]);
    reflexivity.
Defined.

(** C6: when the port is already in use, [TCPServer.__init__] fails: the
    process exits with status 1 and the error
    [OSError: [Errno 98] Address already in use] on stderr, without
    printing the banner, serving any connection or keeping a socket. *)
Theorem c6_port_in_use_fatal lib fs ev :
  port_in_use ev = true ->
  run lib fs ev
  = (Exit 1, mkW (script_dir ev) [] ["OSError: [Errno 98] Address already in use"]
                 SockClosed (Some ("", PORT)) []).
Proof. intros Hp. unfold run. rewrite main_in_use by exact Hp. reflexivity. Qed.

Lemma c6_witness :
  run Demo.lib Demo.fs (Demo.proc true [Interrupt])
  = (Exit 1, mkW "/srv/mdp" [] ["OSError: [Errno 98] Address already in use"]
                 SockClosed (Some ("", 8000%Z)) []).
Proof. apply (c6_port_in_use_fatal Demo.lib Demo.fs (Demo.proc true [Interrupt])). reflexivity. Defined.

(** C7: the port is the constant 8000 and the socket is bound to
    [("", 8000)], all interfaces, whatever the process's arguments and
    environment, which the run does not depend on; every connection is
    served from [dirname(abspath(__file__))], the directory of server.py,
    and the target ["/"] translates to that directory itself. *)
Theorem c7_port_and_root lib fs ev :
  PORT = 8000%Z
  /\ bound (snd (run lib fs ev)) = Some ("", PORT)
  /\ (forall d out, In (d, out) (served (snd (run lib fs ev))) ->
      d = script_dir ev /\ translate_path lib d "/" = mkT d [] true)
  /\ (forall a e, run lib fs ev
      = run lib fs (mkEnv (script_file ev) (start_cwd ev) a e (port_in_use ev) (events ev))).
Proof.
  pose proof (run_frame lib fs ev) as H.
  destruct (run lib fs ev) as [st w] eqn:E. destruct H as [_ [Hb Hs]].
  split; [reflexivity |]. split; [exact Hb |]. split.
  - intros d out Hin. split; [exact (Hs d out Hin) | reflexivity].
  - intros a e. rewrite <- E. destruct ev. reflexivity.
Qed.

(** C8: the working directory is set once, before the socket is created,
    to the directory of server.py; it is the same at the end of the run,
    and every connection is served from it. *)
Theorem c8_fixed_working_directory lib fs ev :
  cwd (snd (run lib fs ev)) = script_dir ev
  /\ (forall d out, In (d, out) (served (snd (run lib fs ev))) -> d = script_dir ev).
Proof.
  pose proof (run_frame lib fs ev) as H.
  destruct (run lib fs ev) as [st w]. destruct H as [Hc [_ Hs]]. split; assumption.
Qed.

(** C10: on every path on which the process ends (SIGINT in the accept
    loop, another exception raised by the loop, or a failed bind), the
    listening socket is closed. *)
Theorem c10_socket_closed_on_exit lib fs ev :
  fst (run lib fs ev) <> StillRunning -> sock (snd (run lib fs ev)) = SockClosed.
Proof.
  unfold run. destruct (port_in_use ev) eqn:Hp.
  - rewrite main_in_use by exact Hp. reflexivity.
  - rewrite main_listening by exact Hp. rewrite with_close.
    fold (serving_body lib fs ev).
    destruct (serving_body lib fs ev (listening_world ev)) as [[a | [] |] w'];
      simpl; congruence.
Qed.

Lemma c10_witness :
  sock (snd (run Demo.lib Demo.fs
               (Demo.proc false [Idle; HandlerFault; LoopFault (OtherError "ValueError")])))
  = SockClosed.
Proof.
  apply c10_socket_closed_on_exit. vm_compute. discriminate.
Defined.

End Claims.

Module Requests.
Import Http Props StrFacts.

Lemma rstrip_crlf_plain a V :
  plain V -> rstrip crlf_char (a ++ V ++ crlf) = a ++ V.
Proof.
  intros [HVn HVs].
  unfold rstrip. rewrite rev_str_app, rev_str_app.
  assert (Hcut : lstrip crlf_char (rev_str crlf ++ rev_str V ++ rev_str a)
                 = lstrip crlf_char (rev_str V ++ rev_str a)) by reflexivity.
  rewrite append_assoc, Hcut, lstrip_stop.
  - rewrite <- rev_str_app, rev_str_involutive. reflexivity.
  - rewrite nonempty_rev. exact HVn.
  - rewrite str_forall_rev. revert HVs. apply str_forall_impl.
    intros c Hc. destruct (crlf_char c) eqn:E; [| reflexivity].
    rewrite (crlf_char_space c E) in Hc. discriminate.
Qed.

Lemma plain_no_space w : plain w -> str_forall (fun c => negb (is_space c)) w = true.
Proof. intros [_ H]. exact H. Qed.

Lemma words3 M P V :
  plain M -> plain P -> plain V ->
  split_ws (rstrip crlf_char (M ++ " " ++ P ++ " " ++ V ++ crlf)) = [M; P; V].
Proof.
  intros HM HP HV.
  replace (M ++ " " ++ P ++ " " ++ V ++ crlf) with ((M ++ " " ++ P ++ " ") ++ V ++ crlf)
    by (rewrite !append_assoc; reflexivity).
  rewrite rstrip_crlf_plain by exact HV.
  replace ((M ++ " " ++ P ++ " ") ++ V) with (M ++ String " " (P ++ String " " V))
    by (rewrite !append_assoc; reflexivity).
  unfold split_ws.
  rewrite split_on_sep by (reflexivity || (apply plain_no_space; assumption)).
  rewrite split_on_sep by (reflexivity || (apply plain_no_space; assumption)).
  rewrite split_on_plain by (apply plain_no_space; assumption).
  destruct HM as [HM _], HP as [HP _], HV as [HV _].
  simpl. rewrite HM, HP, HV. reflexivity.
Qed.

Lemma words2 M P :
  plain M -> plain P ->
  split_ws (rstrip crlf_char (M ++ " " ++ P ++ crlf)) = [M; P].
Proof.
  intros HM HP.
  replace (M ++ " " ++ P ++ crlf) with ((M ++ " ") ++ P ++ crlf)
    by (rewrite !append_assoc; reflexivity).
  rewrite rstrip_crlf_plain by exact HP.
  replace ((M ++ " ") ++ P) with (M ++ String " " P)
    by (rewrite !append_assoc; reflexivity).
  unfold split_ws.
  rewrite split_on_sep by (reflexivity || (apply plain_no_space; assumption)).
  rewrite split_on_plain by (apply plain_no_space; assumption).
  destruct HM as [HM _], HP as [HP _].
  simpl. rewrite HM, HP. reflexivity.
Qed.

Lemma nonempty_app_l a b : nonempty a = true -> nonempty (a ++ b) = true.
Proof. destruct a; [discriminate | reflexivity]. Qed.

(** [parse_request] on a three-word request line with an HTTP/1.x or
    HTTP/0.x version. *)
Lemma parse_request3 lib eh M P V hs maj mn s :
  plain M -> plain P -> plain V -> parse_version V = Some (maj, mn) -> (maj < 2)%Z ->
  exists s1,
    parse_request lib eh (M ++ " " ++ P ++ " " ++ V ++ crlf) (HeadersOk hs) s = (true, s1)
    /\ request_version s1 = V /\ command s1 = Some M
    /\ req_path s1 = collapse_slashes P /\ req_headers s1 = hs
    /\ headers_buffer s1 = headers_buffer s /\ wfile s1 = wfile s
    /\ directory s1 = directory s /\ close_connection s1 = true.
Proof.
  intros HM HP HV Hv Hm.
  unfold parse_request. cbv zeta.
  rewrite words3 by assumption.
  unfold bind, modify, gets, ret. cbn -[send_error].
  rewrite Hv, andb_false_r.
  replace ((2 <? maj)%Z || ((maj =? 2)%Z && (0 <=? mn)%Z)) with false
    by (symmetry; apply orb_false_iff; split;
        [apply Z.ltb_ge; lia | apply andb_false_iff; left; apply Z.eqb_neq; lia]).
  cbn -[send_error].
  rewrite !andb_false_r. cbn [andb].
  unfold bind, modify, gets, ret.
  destruct (lower (hget "Connection" hs "") =? "close");
    (eexists; split; [reflexivity | destruct s; repeat split; reflexivity]).
Qed.
End Requests.

Module Closing.
Import Http ExtraDefs.


Create HintDb keep.

Lemma keeps_ret {A} (a : A) : keeps closing (ret a).
Proof. intros s Hs. exact Hs. Qed.

Lemma keeps_bind {A B} (m : HM A) (k : A -> HM B) :
  keeps closing m -> (forall a, keeps closing (k a)) -> keeps closing (bind m k).
Proof.
  intros Hm Hk s Hs. unfold bind.
  specialize (Hm s Hs). destruct (m s) as [a s']. apply Hk, Hm.
Qed.

Lemma keeps_gets {A} (f : hstate -> A) : keeps closing (gets f).
Proof. intros s Hs. exact Hs. Qed.

Lemma keeps_modify (f : hstate -> hstate) :
  (forall s, close_connection (f s) = close_connection s) -> keeps closing (modify f).
Proof. intros Hf s Hs. unfold closing in *. simpl. rewrite Hf. exact Hs. Qed.

Lemma keeps_set_close_true : keeps closing (modify (set_close true)).
Proof. intros s _. reflexivity. Qed.

Lemma keeps_send_header k v :
  (lower k =? "connection") && negb (lower v =? "close") && (lower v =? "keep-alive") = false ->
  keeps closing (send_header k v).
Proof.
  intros Hkv s Hs. unfold send_header, not_http09, bind, gets, modify, ret.
  destruct (negb (request_version s =? "HTTP/0.9")); cbn;
    (destruct (lower k =? "connection"); [| exact Hs]);
    (destruct (lower v =? "close"); [reflexivity |]);
    (destruct (lower v =? "keep-alive"); [discriminate | exact Hs]).
Qed.

Lemma str_ge_proto : str_ge protocol_version "HTTP/1.1" = false.
Proof. reflexivity. Qed.

Lemma est_bind_l {A B} (m : HM A) (k : A -> HM B) :
  establishes closing m -> (forall a, keeps closing (k a)) ->
  establishes closing (bind m k).
Proof.
  intros Hm Hk s. unfold bind. specialize (Hm s).
  destruct (m s) as [a s']. apply Hk, Hm.
Qed.

Lemma est_bind_r {A B} (m : HM A) (k : A -> HM B) :
  (forall a, establishes closing (k a)) -> establishes closing (bind m k).
Proof. intros Hk s. unfold bind. destruct (m s) as [a s']. apply Hk. Qed.

Ltac keep_step :=
  cbv beta zeta;
  match goal with
  | |- keeps _ (bind _ _) => apply keeps_bind; [ | intro ]
  | |- keeps _ (ret _) => apply keeps_ret
  | |- keeps _ (gets _) => apply keeps_gets
  | |- keeps _ (modify (set_close true)) => apply keeps_set_close_true
  | |- keeps _ (modify (set_close false)) =>
      exfalso;
      match goal with
      | H : _ = true |- _ =>
          rewrite str_ge_proto in H; rewrite ?andb_false_r in H; discriminate H
      end
  | |- keeps _ (modify _) => apply keeps_modify; intro; reflexivity
  | |- keeps _ (send_header _ _) => apply keeps_send_header; reflexivity
  | |- keeps _ (if ?b then _ else _) => destruct b eqn:?
  | |- keeps _ (match ?x with _ => _ end) => destruct x
  | |- keeps _ _ => solve [ eauto with keep ]
  end.

Ltac keep := repeat keep_step.

Lemma keeps_send_response_only code msg : keeps closing (send_response_only code msg).
Proof. unfold send_response_only, not_http09. keep. Qed.
Global Hint Resolve keeps_send_response_only : keep.

Lemma keeps_send_response lib code msg : keeps closing (send_response lib code msg).
Proof. unfold send_response. keep. Qed.
Global Hint Resolve keeps_send_response : keep.

Lemma keeps_write_body b : keeps closing (write_body b).
Proof. apply keeps_modify. intro. reflexivity. Qed.
Global Hint Resolve keeps_write_body : keep.

Lemma keeps_my_end_headers : keeps closing my_end_headers.
Proof. unfold my_end_headers, base_end_headers, flush_headers, not_http09. keep. Qed.
Global Hint Resolve keeps_my_end_headers : keep.

Section HandlerInvariant.
Variable lib : Lib.
Variable fs : FS.

Lemma keeps_send_error code m e : keeps closing (send_error lib my_end_headers code m e).
Proof. unfold send_error. keep. Qed.
Local Hint Resolve keeps_send_error : keep.

Lemma est_send_error code m e :
  establishes closing (send_error lib my_end_headers code m e).
Proof.
  unfold send_error. cbv zeta. destruct (responses code) as [[sh lg] |]; cbv zeta;
  (apply est_bind_r; intros _; apply est_bind_l;
   [ intros s; unfold send_header, not_http09, bind, gets, modify, ret;
     destruct (negb _); reflexivity
   | intros _; keep ]).
Qed.
Local Hint Resolve est_send_error : keep.

Lemma keeps_list_directory t : keeps closing (list_directory lib fs my_end_headers t).
Proof. unfold list_directory. keep. Qed.
Local Hint Resolve keeps_list_directory : keep.

Lemma keeps_send_file t : keeps closing (send_file lib fs my_end_headers t).
Proof. unfold send_file, handler_exception. keep. Qed.
Local Hint Resolve keeps_send_file : keep.

Lemma keeps_send_head : keeps closing (send_head lib fs my_end_headers).
Proof. unfold send_head. keep. Qed.
Local Hint Resolve keeps_send_head : keep.

Lemma keeps_do_GET : keeps closing (do_GET lib fs my_end_headers).
Proof. unfold do_GET. keep. Qed.

Lemma keeps_do_HEAD : keeps closing (do_HEAD lib fs my_end_headers).
Proof. unfold do_HEAD. keep. Qed.
Local Hint Resolve keeps_do_GET keeps_do_HEAD : keep.

Lemma keeps_parse_request_rest words hr :
  keeps closing (parse_request_rest lib my_end_headers words hr).
Proof. unfold parse_request_rest, handle_expect_100. keep. Qed.
Local Hint Resolve keeps_parse_request_rest : keep.

Lemma est_parse_request raw hr : establishes closing (parse_request lib my_end_headers raw hr).
Proof.
  unfold parse_request. apply est_bind_l; [intros s; reflexivity |]. intros _. keep.
Qed.

Lemma est_handle_one_request r : establishes closing (my_handle_one_request lib fs r).
Proof.
  unfold my_handle_one_request, handle_one_request. cbv zeta.
  destruct (65536 <? String.length (raw_requestline r))%nat.
  - apply est_bind_r. intros _. apply est_send_error.
  - destruct (negb (nonempty (raw_requestline r))); [intros s; reflexivity |].
    apply est_bind_l; [apply est_parse_request |]. intros ok. keep.
Qed.
End HandlerInvariant.

(** A connection is served for its first request only: the handler never keeps it open, so later requests on it get no answer. *)
Lemma one_request_per_connection lib fs d r rest :
  serve_connection lib fs d (r :: rest) = serve_connection lib fs d [r].
Proof.
  unfold serve_connection, handle, handle_loop, bind, modify, gets, ret.
  cbv beta iota zeta.
  pose proof (est_handle_one_request lib fs r (set_close true (init_handler d))) as H.
  destruct (my_handle_one_request lib fs r (set_close true (init_handler d))) as [u s'].
  unfold closing in H. cbn [snd] in H. rewrite H. reflexivity.
Qed.
End Closing.

Module PathSafety.
Import Http Props.

Lemma split_on_pieces p s x :
  In x (split_on p s) -> str_forall (fun c => negb (p c)) x = true.
Proof.
  revert x. induction s as [| c s IH]; intros x Hin; simpl in Hin.
  - destruct Hin as [<- | []]. reflexivity.
  - destruct (p c) eqn:Hc.
    + destruct Hin as [<- | Hin]; [reflexivity | exact (IH x Hin)].
    + destruct (split_on p s) as [| w ws] eqn:E.
      * destruct Hin as [<- | []]. simpl. rewrite Hc. reflexivity.
      * destruct Hin as [<- | Hin].
        -- simpl. rewrite Hc. apply IH. left. reflexivity.
        -- apply IH. right. exact Hin.
Qed.

(** [translate_path] keeps the handler directory as the base and yields only nonempty components that are neither ["."] nor [".."] and hold no ['/'], so a request path never leaves the served directory. *)
Lemma translate_path_confined lib d path :
  tp_dir (translate_path lib d path) = d
  /\ forall x, In x (tp_comps (translate_path lib d path)) ->
     nonempty x = true /\ x <> "." /\ x <> ".."
     /\ str_forall (fun c => negb (slash c)) x = true.
Proof.
  split; [reflexivity |]. intros x Hin. unfold translate_path in Hin. cbn [tp_comps] in Hin.
  apply filter_In in Hin as [Hin Hf]. apply filter_In in Hin as [Hin Hn].
  apply negb_true_iff in Hf. apply orb_false_iff in Hf as [Hf H2].
  apply orb_false_iff in Hf as [_ H1].
  apply String.eqb_neq in H1, H2.
  repeat split; auto. exact (split_on_pieces _ _ _ Hin).
Qed.
End PathSafety.

Module Dispatch.
Import Http Props StrFacts Requests Closing.

Lemma handle_one_request3 lib fs eh M P V hs maj mn s :
  plain M -> plain P -> plain V -> parse_version V = Some (maj, mn) -> (maj < 2)%Z ->
  (String.length (M ++ " " ++ P ++ " " ++ V ++ crlf) <= 65536)%nat ->
  exists s1,
    handle_one_request lib fs eh (mkRequest (M ++ " " ++ P ++ " " ++ V ++ crlf) (HeadersOk hs)) s
    = (if M =? "GET" then do_GET lib fs eh
       else if M =? "HEAD" then do_HEAD lib fs eh
       else send_error lib eh 501 (Some ("Unsupported method (" ++ repr lib M ++ ")")) None) s1
    /\ request_version s1 = V /\ command s1 = Some M
    /\ req_path s1 = collapse_slashes P /\ req_headers s1 = hs
    /\ headers_buffer s1 = headers_buffer s /\ wfile s1 = wfile s
    /\ directory s1 = directory s /\ close_connection s1 = true.
Proof.
  intros HM HP HV Hv Hm Hlen.
  destruct (parse_request3 lib eh M P V hs maj mn s HM HP HV Hv Hm) as [s1 [Hpr Hs1]].
  exists s1. split; [| exact Hs1].
  destruct Hs1 as [_ [Hc _]].
  unfold handle_one_request. cbn [raw_requestline raw_headers].
  replace (65536 <? String.length (M ++ " " ++ P ++ " " ++ V ++ crlf))%nat with false
    by (symmetry; apply Nat.ltb_ge; exact Hlen).
  rewrite (nonempty_app_l M _ (proj1 HM)). cbn [negb].
  unfold bind at 1. rewrite Hpr. cbn [negb].
  unfold bind, gets. rewrite Hc. reflexivity.
Qed.

Lemma err_trace lib code msg sh lg s :
  responses code = Some (sh, lg) ->
  (request_version s =? "HTTP/0.9") = false ->
  exists rest tail,
    let s' := snd (send_error lib my_end_headers code (Some msg) None s) in
    wfile s' = app (wfile s)
      (WHeaders (app (headers_buffer s)
                   ((protocol_version ++ " " ++ decZ code ++ " " ++ msg ++ crlf) :: rest))
       :: tail)
    /\ close_connection s' = true.
Proof.
  intros Hr Ev. destruct s as [dir rv cmd p hs cl0 buf w]. cbn [request_version] in Ev.
  unfold send_error. rewrite Hr. cbv zeta.
  destruct ((200 <=? code)%Z && negb (code =? 204)%Z && negb (code =? 205)%Z
            && negb (code =? 304)%Z);
  unfold send_response, my_end_headers, send_response_only, send_header,
    base_end_headers, flush_headers, not_http09, write_body, bind, ret, gets, modify;
  simpl; repeat (rewrite Ev; simpl);
  (match goal with |- context [if negb (is_head cmd) && ?x && ?y then _ else _] =>
     destruct (negb (is_head cmd) && x && y) end); simpl;
    eexists _, _; (split; [rewrite <- ?app_assoc; simpl; reflexivity | reflexivity]).
Qed.
Lemma handle_bad_version lib fs eh M P V hs s :
  plain M -> plain P -> plain V -> parse_version V = None ->
  (String.length (M ++ " " ++ P ++ " " ++ V ++ crlf) <= 65536)%nat ->
  snd (handle_one_request lib fs eh (mkRequest (M ++ " " ++ P ++ " " ++ V ++ crlf) (HeadersOk hs)) s)
  = snd (send_error lib eh 400 (Some ("Bad request version (" ++ repr lib V ++ ")")) None
           (set_close true (set_version "HTTP/0.9" (set_command None s)))).
Proof.
  intros HM HP HV Hv Hlen.
  unfold handle_one_request. cbn [raw_requestline raw_headers].
  replace (65536 <? String.length (M ++ " " ++ P ++ " " ++ V ++ crlf))%nat with false
    by (symmetry; apply Nat.ltb_ge; exact Hlen).
  rewrite (nonempty_app_l M _ (proj1 HM)). cbn [negb].
  unfold parse_request. cbv zeta. rewrite words3 by assumption.
  unfold bind at 1 2 3, modify. cbn [length Nat.leb last]. rewrite Hv.
  unfold bind at 1.
  destruct (send_error lib eh 400 _ None _) as [u s'].
  reflexivity.
Qed.

Lemma handle_bad_major lib fs eh M P V hs maj mn s :
  plain M -> plain P -> plain V -> parse_version V = Some (maj, mn) ->
  (2 < maj \/ (maj = 2 /\ 0 <= mn))%Z ->
  (String.length (M ++ " " ++ P ++ " " ++ V ++ crlf) <= 65536)%nat ->
  snd (handle_one_request lib fs eh (mkRequest (M ++ " " ++ P ++ " " ++ V ++ crlf) (HeadersOk hs)) s)
  = snd (send_error lib eh 505 (Some ("Invalid HTTP version (" ++ after_first "/" V ++ ")")) None
           (set_close true (set_version "HTTP/0.9" (set_command None s)))).
Proof.
  intros HM HP HV Hv Hm Hlen.
  unfold handle_one_request. cbn [raw_requestline raw_headers].
  replace (65536 <? String.length (M ++ " " ++ P ++ " " ++ V ++ crlf))%nat with false
    by (symmetry; apply Nat.ltb_ge; exact Hlen).
  rewrite (nonempty_app_l M _ (proj1 HM)). cbn [negb].
  unfold parse_request. cbv zeta. rewrite words3 by assumption.
  unfold bind at 1 2 3, modify. cbn [length Nat.leb last]. rewrite Hv.
  rewrite Closing.str_ge_proto, andb_false_r.
  replace ((2 <? maj)%Z || ((maj =? 2)%Z && (0 <=? mn)%Z)) with true
    by (symmetry; apply orb_true_iff; destruct Hm as [H | [H1 H2]];
        [left; apply Z.ltb_lt; exact H
        | right; apply andb_true_iff; split; [apply Z.eqb_eq | apply Z.leb_le]; assumption]).
  unfold bind, ret.
  destruct (send_error lib eh 505 _ None _) as [u s'].
  reflexivity.
Qed.

Lemma handle_09_other lib fs eh M P hs s :
  plain M -> plain P -> M <> "GET" ->
  (String.length (M ++ " " ++ P ++ crlf) <= 65536)%nat ->
  snd (handle_one_request lib fs eh (mkRequest (M ++ " " ++ P ++ crlf) (HeadersOk hs)) s)
  = snd (send_error lib eh 400 (Some ("Bad HTTP/0.9 request type (" ++ repr lib M ++ ")")) None
           (set_close true (set_close true (set_version "HTTP/0.9" (set_command None s))))).
Proof.
  intros HM HP HG Hlen.
  unfold handle_one_request. cbn [raw_requestline raw_headers].
  replace (65536 <? String.length (M ++ " " ++ P ++ crlf))%nat with false
    by (symmetry; apply Nat.ltb_ge; exact Hlen).
  rewrite (nonempty_app_l M _ (proj1 HM)). cbn [negb].
  unfold parse_request. cbv zeta. rewrite words2 by assumption.
  unfold bind at 1 2, modify, ret. cbn [length Nat.leb negb andb].
  unfold parse_request_rest. cbn [length Nat.eqb].
  rewrite (proj2 (String.eqb_neq M "GET") HG).
  unfold bind, modify, ret. cbn [negb].
  destruct (send_error lib eh 400 _ None _) as [u s'].
  reflexivity.
Qed.
Lemma parse_request2_get lib eh P hs s :
  plain P ->
  exists s1,
    parse_request lib eh ("GET" ++ " " ++ P ++ crlf) (HeadersOk hs) s = (true, s1)
    /\ request_version s1 = "HTTP/0.9" /\ command s1 = Some "GET"
    /\ req_path s1 = collapse_slashes P /\ req_headers s1 = hs
    /\ headers_buffer s1 = headers_buffer s /\ wfile s1 = wfile s
    /\ directory s1 = directory s /\ close_connection s1 = true.
Proof.
  intros HP.
  unfold parse_request. cbv zeta.
  rewrite words2 by (assumption || (split; reflexivity)).
  unfold bind, modify, gets, ret. cbn -[send_error].
  rewrite !andb_false_r. cbn [andb].
  unfold bind, modify, gets, ret.
  destruct (lower (hget "Connection" hs "") =? "close");
    (eexists; split; [reflexivity | destruct s; repeat split; reflexivity]).
Qed.
Lemma handle_one_request2_get lib fs eh P hs s :
  plain P ->
  (String.length ("GET " ++ P ++ crlf) <= 65536)%nat ->
  exists s1,
    handle_one_request lib fs eh (mkRequest ("GET " ++ P ++ crlf) (HeadersOk hs)) s
    = do_GET lib fs eh s1
    /\ request_version s1 = "HTTP/0.9" /\ command s1 = Some "GET"
    /\ req_path s1 = collapse_slashes P /\ req_headers s1 = hs
    /\ headers_buffer s1 = headers_buffer s /\ wfile s1 = wfile s
    /\ directory s1 = directory s /\ close_connection s1 = true.
Proof.
  intros HP Hlen.
  destruct (parse_request2_get lib eh P hs s HP) as [s1 [Hpr Hs1]].
  exists s1. split; [| exact Hs1].
  destruct Hs1 as [_ [Hc _]].
  unfold handle_one_request. cbn [raw_requestline raw_headers].
  replace (65536 <? String.length ("GET " ++ P ++ crlf))%nat with false
    by (symmetry; apply Nat.ltb_ge; exact Hlen).
  replace (nonempty ("GET " ++ P ++ crlf)) with true by reflexivity.
  cbn [negb].
  change ("GET " ++ P ++ crlf) with ("GET" ++ " " ++ P ++ crlf).
  unfold bind at 1. rewrite Hpr. cbn [negb].
  unfold bind, gets. rewrite Hc. reflexivity.
Qed.
Lemma parse_request3_hdr_error lib eh M P V hr msg err maj mn s :
  plain M -> plain P -> plain V -> parse_version V = Some (maj, mn) -> (maj < 2)%Z ->
  (hr = HeadersLineTooLong err /\ msg = "Line too long")
  \/ (hr = HeadersTooMany err /\ msg = "Too many headers") ->
  exists s1,
    parse_request lib eh (M ++ " " ++ P ++ " " ++ V ++ crlf) hr s
    = (send_error lib eh 431 (Some msg) (Some err) ;; ret false) s1
    /\ request_version s1 = V
    /\ headers_buffer s1 = headers_buffer s /\ wfile s1 = wfile s.
Proof.
  intros HM HP HV Hv Hm Hhr.
  unfold parse_request. cbv zeta.
  rewrite words3 by assumption.
  unfold bind at 1 2 3, modify, gets, ret. cbn -[send_error].
  rewrite Hv, andb_false_r.
  replace ((2 <? maj)%Z || ((maj =? 2)%Z && (0 <=? mn)%Z)) with false
    by (symmetry; apply orb_false_iff; split;
        [apply Z.ltb_ge; lia | apply andb_false_iff; left; apply Z.eqb_neq; lia]).
  cbn -[send_error].
  destruct Hhr as [[-> ->] | [-> ->]];
    (eexists; split; [reflexivity | destruct s; repeat split; reflexivity]).
Qed.

Lemma parse_request_syntax lib eh raw hr ws maj mn s :
  split_ws (rstrip crlf_char raw) = ws -> (4 <= length ws)%nat ->
  parse_version (last ws "") = Some (maj, mn) -> (maj < 2)%Z ->
  exists s1,
    parse_request lib eh raw hr s
    = (send_error lib eh 400 (Some ("Bad request syntax ("
                                    ++ repr lib (rstrip crlf_char raw) ++ ")")) None ;;
       ret false) s1
    /\ request_version s1 = last ws "" /\ command s1 = None
    /\ headers_buffer s1 = headers_buffer s /\ wfile s1 = wfile s.
Proof.
  intros Hws Hl Hv Hm.
  unfold parse_request. cbv zeta. rewrite Hws.
  destruct ws as [| w0 ws']; [cbn in Hl; lia |].
  replace (3 <=? length (w0 :: ws'))%nat with true
    by (symmetry; apply Nat.leb_le; lia).
  replace (length (w0 :: ws') <=? 3)%nat with false
    by (symmetry; apply Nat.leb_gt; lia).
  unfold bind at 1 2 3, modify, gets, ret. cbv iota beta.
  rewrite Hv, str_ge_proto, andb_false_r.
  replace ((2 <? maj)%Z || ((maj =? 2)%Z && (0 <=? mn)%Z)) with false
    by (symmetry; apply orb_false_iff; split;
        [apply Z.ltb_ge; lia | apply andb_false_iff; left; apply Z.eqb_neq; lia]).
  rewrite andb_false_r. cbn [negb].
  eexists; split; [reflexivity | destruct s; repeat split; reflexivity].
Qed.

Lemma parse_request_one_word lib eh raw hr w s :
  split_ws (rstrip crlf_char raw) = [w] ->
  parse_request lib eh raw hr s
  = (send_error lib eh 400 (Some ("Bad request syntax ("
                                  ++ repr lib (rstrip crlf_char raw) ++ ")")) None ;;
     ret false) (set_close true (set_version "HTTP/0.9" (set_command None s))).
Proof.
  intros Hws. unfold parse_request. cbv zeta. rewrite Hws.
  reflexivity.
Qed.

Lemma parse_request_blank lib eh raw hr s :
  split_ws (rstrip crlf_char raw) = [] ->
  parse_request lib eh raw hr s
  = (false, set_close true (set_version "HTTP/0.9" (set_command None s))).
Proof. intros Hws. unfold parse_request. cbv zeta. rewrite Hws. reflexivity. Qed.

Lemma blank_nonempty raw ws :
  split_ws (rstrip crlf_char raw) = ws -> ws <> [] -> nonempty raw = true.
Proof.
  intros Hws Hne. destruct raw; [| reflexivity].
  exfalso. apply Hne. rewrite <- Hws. reflexivity.
Qed.
End Dispatch.

Module Responses.
Import Http Props StrFacts GetPath Requests Dispatch ExtraDefs Closing.

Lemma serve_one lib fs d r :
  serve_connection lib fs d [r]
  = wfile (snd (my_handle_one_request lib fs r (set_close true (init_handler d)))).
Proof.
  unfold serve_connection, handle, handle_loop, bind, modify, gets, ret.
  cbv beta iota zeta.
  pose proof (est_handle_one_request lib fs r (set_close true (init_handler d))) as H.
  destruct (my_handle_one_request lib fs r (set_close true (init_handler d))) as [u s'].
  unfold closing in H. cbn [snd] in H. rewrite H. reflexivity.
Qed.

Lemma err_trace_opt lib code msg sh lg s :
  responses code = Some (sh, lg) ->
  (request_version s =? "HTTP/0.9") = false ->
  exists rest tail,
    let s' := snd (send_error lib my_end_headers code msg None s) in
    wfile s' = app (wfile s)
      (WHeaders (app (headers_buffer s)
                   ((protocol_version ++ " " ++ decZ code ++ " "
                     ++ match msg with Some m => m | None => sh end ++ crlf) :: rest))
       :: tail)
    /\ close_connection s' = true.
Proof.
  intros Hr Ev. destruct msg as [m |]; [exact (err_trace lib code m sh lg s Hr Ev) |].
  destruct s as [dir rv cmd p hs cl0 buf w]. cbn [request_version] in Ev.
  unfold send_error. rewrite Hr. cbv zeta.
  destruct ((200 <=? code)%Z && negb (code =? 204)%Z && negb (code =? 205)%Z
            && negb (code =? 304)%Z);
  unfold send_response, my_end_headers, send_response_only, send_header,
    base_end_headers, flush_headers, not_http09, write_body, bind, ret, gets, modify;
  simpl; repeat (rewrite Ev; simpl);
  (match goal with |- context [if negb (is_head cmd) && ?x && ?y then _ else _] =>
     destruct (negb (is_head cmd) && x && y) end); simpl;
    eexists _, _; (split; [rewrite <- ?app_assoc; simpl; reflexivity | reflexivity]).
Qed.

(** In HTTP/0.9 mode [send_error] writes only the body. *)
Lemma err09_trace lib code msg sh lg s :
  responses code = Some (sh, lg) ->
  ((200 <=? code)%Z && negb (code =? 204)%Z && negb (code =? 205)%Z
   && negb (code =? 304)%Z) = true ->
  request_version s = "HTTP/0.9" -> command s = None ->
  wfile (snd (send_error lib my_end_headers code (Some msg) None s))
  = app (wfile s) (body_chunk (error_page lib code msg lg)).
Proof.
  intros Hr Hb Ev Hc. destruct s as [dir rv cmd p hs cl0 buf w].
  cbn [request_version command] in Ev, Hc. subst rv cmd.
  unfold send_error. rewrite Hr. cbv zeta. rewrite Hb.
  unfold send_response, my_end_headers, send_response_only, send_header,
    base_end_headers, flush_headers, not_http09, write_body, bind, ret, gets, modify.
  simpl. unfold body_chunk. destruct (nonempty _); simpl; [reflexivity |].
  rewrite app_nil_r. reflexivity.
Qed.

(** In HTTP/0.9 mode the header calls of a 200 response change nothing. *)
Lemma ok200_09 lib ct cl lm (x : option string) s :
  request_version s = "HTTP/0.9" ->
  (send_response lib 200 None ;;
   send_header "Content-type" ct ;;
   send_header "Content-Length" cl ;;
   send_header "Last-Modified" lm ;;
   my_end_headers ;; ret x) s = (x, s).
Proof.
  intros Ev. destruct s as [dir rv cmd p hs cl0 buf w]. cbn [request_version] in Ev.
  subst rv.
  unfold send_response, my_end_headers, send_response_only, send_header,
    base_end_headers, flush_headers, not_http09, bind, ret, gets, modify.
  reflexivity.
Qed.
Lemma redirect_trace lib loc s :
  (request_version s =? "HTTP/0.9") = false ->
  (send_response lib 301 None ;;
   send_header "Location" loc ;;
   send_header "Content-Length" "0" ;;
   my_end_headers ;; ret (@None string)) s
  = (None, set_buffer [] (set_wfile (app (wfile s)
          [WHeaders (app (headers_buffer s) (redirect_lines lib loc))]) s)).
Proof.
  intros Ev. destruct s as [dir rv cmd p hs cl0 buf w]. cbn [request_version] in Ev.
  unfold send_response, my_end_headers, send_response_only, send_header,
    base_end_headers, flush_headers, not_http09, bind, ret, gets, modify.
  simpl. repeat (rewrite Ev; simpl).
  unfold redirect_lines. simpl. rewrite <- !app_assoc. reflexivity.
Qed.


Lemma translate_root lib d : translate_path lib d "/" = mkT d [] true.
Proof. reflexivity. Qed.

Lemma send_head_dir_redirect lib fs eh comps b names s :
  comps <> [] -> forallb simple_name comps = true ->
  fs (directory s) comps = Some (Dir b names) ->
  req_path s = literal_path comps ->
  endswith "/" (url_path lib (literal_path comps)) = false ->
  send_head lib fs eh s
  = (send_response lib 301 None ;;
     send_header "Location" (url_add_slash lib (literal_path comps)) ;;
     send_header "Content-Length" "0" ;;
     eh ;; ret None) s.
Proof.
  intros Hne Hs Hfs Hp Hu. unfold send_head, bind at 1 2, gets.
  rewrite Hp, translate_literal by assumption. cbn [tp_comps].
  rewrite (literal_no_nul _ comps false Hs), Hfs, Hu.
  reflexivity.
Qed.

Lemma send_head_root_index lib fs eh b names c m s :
  req_path s = "/" ->
  fs (directory s) [] = Some (Dir b names) ->
  endswith "/" (url_path lib "/") = true ->
  fs (directory s) ["index.html"] = Some (File true c m) ->
  send_head lib fs eh s = send_file lib fs eh (mkT (directory s) ["index.html"] false) s.
Proof.
  intros Hp Hfs Hu Hi. unfold send_head, bind at 1 2, gets.
  rewrite Hp, translate_root. cbn [tp_comps].
  rewrite (literal_no_nul _ [] true eq_refl), Hfs, Hu. cbn [negb].
  cbn [find_index tp_dir tp_comps app]. rewrite Hi. reflexivity.
Qed.

Lemma err_trace_gen lib code msg ex sh lg s :
  responses code = Some (sh, lg) ->
  (request_version s =? "HTTP/0.9") = false ->
  exists rest tail,
    let s' := snd (send_error lib my_end_headers code (Some msg) ex s) in
    wfile s' = app (wfile s)
      (WHeaders (app (headers_buffer s)
                   ((protocol_version ++ " " ++ decZ code ++ " " ++ msg ++ crlf) :: rest))
       :: tail).
Proof.
  intros Hr Ev. destruct s as [dir rv cmd p hs cl0 buf w]. cbn [request_version] in Ev.
  unfold send_error. rewrite Hr. cbv zeta.
  destruct ((200 <=? code)%Z && negb (code =? 204)%Z && negb (code =? 205)%Z
            && negb (code =? 304)%Z);
  unfold send_response, my_end_headers, send_response_only, send_header,
    base_end_headers, flush_headers, not_http09, write_body, bind, ret, gets, modify;
  simpl; repeat (rewrite Ev; simpl);
  (match goal with |- context [if negb (is_head cmd) && ?x && ?y then _ else _] =>
     destruct (negb (is_head cmd) && x && y) end); simpl;
    eexists _, _; rewrite <- ?app_assoc; simpl; reflexivity.
Qed.

Lemma notmod_trace lib s :
  (request_version s =? "HTTP/0.9") = false ->
  (send_response lib 304 None ;; my_end_headers ;; ret (@None string)) s
  = (None, set_buffer [] (set_wfile (app (wfile s)
          [WHeaders (app (headers_buffer s) (notmod_lines lib))]) s)).
Proof.
  intros Ev. destruct s as [dir rv cmd p hs cl0 buf w]. cbn [request_version] in Ev.
  unfold send_response, my_end_headers, send_response_only, send_header,
    base_end_headers, flush_headers, not_http09, bind, ret, gets, modify.
  simpl. repeat (rewrite Ev; simpl).
  unfold notmod_lines. simpl. rewrite <- !app_assoc. reflexivity.
Qed.

Lemma send_file_304 lib fs eh t c m ims s :
  endswith "/" (tp_string t) = false -> path_has_nul t = false ->
  fs (tp_dir t) (tp_comps t) = Some (File true c m) ->
  hhas "If-Modified-Since" (req_headers s) = true ->
  hhas "If-None-Match" (req_headers s) = false ->
  parse_ims lib (hget "If-Modified-Since" (req_headers s) "") = Some (Some ims) ->
  (m <= ims)%Z ->
  send_file lib fs eh t s = (send_response lib 304 None ;; eh ;; ret None) s.
Proof.
  intros He Hz Hfs Hh Hn Hp Hle. unfold send_file. cbv zeta. rewrite He, Hz, Hfs.
  unfold bind at 1, gets. rewrite Hh, Hn, Hp. cbn [andb negb].
  replace (m <=? ims)%Z with true by (symmetry; apply Z.leb_le; exact Hle).
  reflexivity.
Qed.

Lemma send_head_unreadable lib fs eh comps c m s :
  comps <> [] -> forallb simple_name comps = true ->
  fs (directory s) comps = Some (File false c m) ->
  req_path s = literal_path comps ->
  send_head lib fs eh s = (send_error lib eh 404 (Some "File not found") None ;; ret None) s.
Proof.
  intros Hne Hs Hfs Hp. unfold send_head, bind at 1 2, gets.
  rewrite Hp, translate_literal by assumption. cbn [tp_comps].
  rewrite (literal_no_nul _ comps false Hs), Hfs.
  unfold send_file. cbv zeta. cbn [tp_dir tp_comps].
  rewrite (literal_no_nul _ comps false Hs), Hfs.
  destruct (endswith _ _); reflexivity.
Qed.
End Responses.

Module ScriptExtra.
Import Http Script Props ScriptFacts ExtraDefs.

Lemma serve_forever_spec lib fs evs w :
  serve_forever lib fs evs w
  = (match stop_exn evs with None => Running | Some e => Raised e end,
     mkW (cwd w) (stdout w) (app (stderr w) (repeat fault_line (faults evs)))
         (sock w) (bound w)
         (app (served w)
            (map (fun reqs => (cwd w, serve_connection lib fs (cwd w) reqs))
               (connections evs)))).
Proof.
  revert w. induction evs as [| e rest IH]; intros w.
  - simpl. unfold running. rewrite !app_nil_r. destruct w; reflexivity.
  - destruct e; simpl; unfold raise, sbind, sgets, supdate.
    + apply IH.
    + rewrite IH. simpl. rewrite <- app_assoc. reflexivity.
    + rewrite IH. simpl. rewrite <- app_assoc. reflexivity.
    + rewrite !app_nil_r. destruct w; reflexivity.
    + rewrite !app_nil_r. destruct w; reflexivity.
Qed.

End ScriptExtra.

Module ExtraTheorems.
Import Http Props StrFacts GetPath Requests Dispatch ExtraDefs Closing Responses.
Import Script ScriptFacts ScriptExtra.

(** A well-formed HTTP/1.x request with a method other than GET or HEAD is answered 501 naming the method. *)
Theorem unsupported_method_501 lib fs d M P V maj mn hs :
  plain M -> plain P -> plain V -> parse_version V = Some (maj, mn) -> (maj < 2)%Z ->
  V <> "HTTP/0.9" -> M <> "GET" -> M <> "HEAD" ->
  (String.length (M ++ " " ++ P ++ " " ++ V ++ crlf) <= 65536)%nat ->
  exists rest tail,
    serve_connection lib fs d [mkRequest (M ++ " " ++ P ++ " " ++ V ++ crlf) (HeadersOk hs)]
    = WHeaders (("HTTP/1.0 501 Unsupported method (" ++ repr lib M ++ ")" ++ crlf) :: rest)
      :: tail.
Proof.
  intros HM HP HV Hv Hm H09 HG HH Hlen.
  rewrite serve_one. unfold my_handle_one_request.
  destruct (handle_one_request3 lib fs my_end_headers M P V hs maj mn
              (set_close true (init_handler d)) HM HP HV Hv Hm Hlen)
    as [s1 [H1 [Hv1 [_ [_ [_ [Hb1 [Hw1 _]]]]]]]].
  rewrite H1.
  rewrite (proj2 (String.eqb_neq M "GET") HG), (proj2 (String.eqb_neq M "HEAD") HH).
  assert (Ev : (request_version s1 =? "HTTP/0.9") = false)
    by (rewrite Hv1; apply String.eqb_neq; exact H09).
  destruct (err_trace lib 501 ("Unsupported method (" ++ repr lib M ++ ")")
              "Not Implemented" "Server does not support this operation" s1 eq_refl Ev)
    as [rest [tail [Hw _]]].
  exists rest, tail. rewrite Hw, Hw1, Hb1. cbn. rewrite ?append_assoc. reflexivity.
Qed.

(** A three-word request line whose version is not of the form HTTP/d.d gets a 400 error page with no status line or headers. *)
Theorem bad_version_400_no_headers lib fs d M P V hs :
  plain M -> plain P -> plain V -> parse_version V = None ->
  (String.length (M ++ " " ++ P ++ " " ++ V ++ crlf) <= 65536)%nat ->
  serve_connection lib fs d [mkRequest (M ++ " " ++ P ++ " " ++ V ++ crlf) (HeadersOk hs)]
  = body_chunk (error_page lib 400 ("Bad request version (" ++ repr lib V ++ ")")
                  "Bad request syntax or unsupported method").
Proof.
  intros HM HP HV Hv Hlen.
  rewrite serve_one. unfold my_handle_one_request.
  rewrite handle_bad_version by assumption.
  rewrite (err09_trace lib 400 _ "Bad Request" "Bad request syntax or unsupported method");
    reflexivity.
Qed.

(** A version whose pair (major, minor) is at least (2, 0) in tuple order gets a 505 error page with no status line or headers. *)
Theorem http2_505_no_headers lib fs d M P V hs maj mn :
  plain M -> plain P -> plain V -> parse_version V = Some (maj, mn) ->
  (2 < maj \/ (maj = 2 /\ 0 <= mn))%Z ->
  (String.length (M ++ " " ++ P ++ " " ++ V ++ crlf) <= 65536)%nat ->
  serve_connection lib fs d [mkRequest (M ++ " " ++ P ++ " " ++ V ++ crlf) (HeadersOk hs)]
  = body_chunk (error_page lib 505 ("Invalid HTTP version (" ++ after_first "/" V ++ ")")
                  "Cannot fulfill request").
Proof.
  intros HM HP HV Hv Hm Hlen.
  rewrite serve_one. unfold my_handle_one_request.
  rewrite (handle_bad_major lib fs _ M P V hs maj mn) by assumption.
  rewrite (err09_trace lib 505 _ "HTTP Version Not Supported" "Cannot fulfill request");
    reflexivity.
Qed.

(** A two-word (HTTP/0.9) request line with a method other than GET gets a 400 error page with no status line or headers. *)
Theorem http09_non_get_400 lib fs d M P hs :
  plain M -> plain P -> M <> "GET" ->
  (String.length (M ++ " " ++ P ++ crlf) <= 65536)%nat ->
  serve_connection lib fs d [mkRequest (M ++ " " ++ P ++ crlf) (HeadersOk hs)]
  = body_chunk (error_page lib 400 ("Bad HTTP/0.9 request type (" ++ repr lib M ++ ")")
                  "Bad request syntax or unsupported method").
Proof.
  intros HM HP HG Hlen.
  rewrite serve_one. unfold my_handle_one_request.
  rewrite handle_09_other by assumption.
  rewrite (err09_trace lib 400 _ "Bad Request" "Bad request syntax or unsupported method");
    reflexivity.
Qed.

(** A request line longer than 65536 bytes is answered 414 with headers. *)
Theorem long_request_line_414 lib fs d r :
  (65536 < String.length (raw_requestline r))%nat ->
  exists rest tail,
    serve_connection lib fs d [r]
    = WHeaders (("HTTP/1.0 414 Request-URI Too Long" ++ crlf) :: rest) :: tail.
Proof.
  intros Hlen. rewrite serve_one. unfold my_handle_one_request, handle_one_request.
  cbv zeta. replace (65536 <? String.length (raw_requestline r))%nat with true
    by (symmetry; apply Nat.ltb_lt; exact Hlen).
  unfold bind at 1, modify.
  destruct (err_trace_opt lib 414 None "Request-URI Too Long" "URI is too long"
              (set_command (Some "") (set_version "" (set_close true (init_handler d))))
              eq_refl eq_refl) as [rest [tail [Hw _]]].
  exists rest, tail. rewrite Hw. reflexivity.
Qed.

(** A two-word GET of a readable file gets the file contents alone, without status line or headers. *)
Theorem http09_get_file_body_only lib fs d comps hs c m :
  comps <> [] -> forallb simple_name comps = true ->
  fs d comps = Some (File true c m) ->
  hhas "If-Modified-Since" hs = false ->
  (String.length ("GET " ++ literal_path comps ++ crlf) <= 65536)%nat ->
  serve_connection lib fs d [mkRequest ("GET " ++ literal_path comps ++ crlf) (HeadersOk hs)]
  = body_chunk c.
Proof.
  intros Hne Hs Hfs Hh Hlen.
  rewrite serve_one. unfold my_handle_one_request.
  destruct (handle_one_request2_get lib fs my_end_headers (literal_path comps) hs
              (set_close true (init_handler d)) (literal_plain comps Hs) Hlen)
    as [s1 [H1 [Hv1 [_ [Hp1 [Hh1 [_ [Hw1 [Hd1 _]]]]]]]]].
  cbn in Hw1, Hd1.
  rewrite collapse_literal in Hp1 by assumption.
  rewrite <- Hd1 in Hfs.
  rewrite H1. unfold do_GET, bind at 1.
  rewrite (send_head_file lib fs _ comps c m s1 Hne Hs Hfs Hp1).
  rewrite (send_file_200 lib fs _ _ c m s1) by
    (try apply tp_string_no_slash; try apply literal_no_nul; try rewrite Hh1; assumption).
  rewrite ok200_09 by exact Hv1.
  unfold body_chunk. destruct (nonempty c); cbn; rewrite Hw1; reflexivity.
Qed.


(** A GET or HEAD of a directory whose URL lacks its trailing slash gets exactly one 301 header block pointing at the slashed URL, and no body. *)
Theorem directory_without_slash_301 lib fs d M comps b names V maj mn hs :
  M = "GET" \/ M = "HEAD" ->
  comps <> [] -> forallb simple_name comps = true ->
  fs d comps = Some (Dir b names) ->
  endswith "/" (url_path lib (literal_path comps)) = false ->
  plain V -> parse_version V = Some (maj, mn) -> (maj < 2)%Z -> V <> "HTTP/0.9" ->
  (String.length (M ++ " " ++ literal_path comps ++ " " ++ V ++ crlf) <= 65536)%nat ->
  serve_connection lib fs d
    [mkRequest (M ++ " " ++ literal_path comps ++ " " ++ V ++ crlf) (HeadersOk hs)]
  = [WHeaders (redirect_lines lib (url_add_slash lib (literal_path comps)))].
Proof.
  intros HMe Hne Hs Hfs Hu HV Hv Hm H09 Hlen.
  assert (HM : plain M) by (destruct HMe; subst M; split; reflexivity).
  rewrite serve_one. unfold my_handle_one_request.
  destruct (handle_one_request3 lib fs my_end_headers M (literal_path comps) V hs
              maj mn (set_close true (init_handler d)) HM
              (literal_plain comps Hs) HV Hv Hm Hlen)
    as [s1 [H1 [Hv1 [_ [Hp1 [_ [Hb1 [Hw1 [Hd1 _]]]]]]]]].
  cbn in Hb1, Hw1, Hd1.
  rewrite collapse_literal in Hp1 by assumption.
  rewrite <- Hd1 in Hfs.
  assert (Ev : (request_version s1 =? "HTTP/0.9") = false)
    by (rewrite Hv1; apply String.eqb_neq; exact H09).
  rewrite H1.
  destruct HMe; subst M; cbn [String.eqb Ascii.eqb Bool.eqb];
    [unfold do_GET | unfold do_HEAD]; unfold bind at 1;
    rewrite (send_head_dir_redirect lib fs _ comps b names s1 Hne Hs Hfs Hp1 Hu);
    rewrite redirect_trace by exact Ev;
    cbn; rewrite Hw1, Hb1; reflexivity.
Qed.

(** GET / of a root holding a readable index.html serves that file with status 200. *)
Theorem root_index_served lib fs d V maj mn hs b names c m :
  fs d [] = Some (Dir b names) ->
  endswith "/" (url_path lib "/") = true ->
  fs d ["index.html"] = Some (File true c m) ->
  plain V -> parse_version V = Some (maj, mn) -> (maj < 2)%Z -> V <> "HTTP/0.9" ->
  hhas "If-Modified-Since" hs = false ->
  (String.length ("GET / " ++ V ++ crlf) <= 65536)%nat ->
  serve_connection lib fs d [mkRequest ("GET / " ++ V ++ crlf) (HeadersOk hs)]
  = WHeaders (ok200_lines lib (guess_type lib (tp_string (mkT d ["index.html"] false)))
                (dec (String.length c)) (date_of lib m))
    :: body_chunk c.
Proof.
  intros Hfs Hu Hi HV Hv Hm H09 Hh Hlen.
  rewrite serve_one. unfold my_handle_one_request.
  destruct (handle_one_request3 lib fs my_end_headers "GET" "/" V hs
              maj mn (set_close true (init_handler d)) (conj eq_refl eq_refl)
              (conj eq_refl eq_refl) HV Hv Hm Hlen)
    as [s1 [H1 [Hv1 [_ [Hp1 [Hh1 [Hb1 [Hw1 [Hd1 _]]]]]]]]].
  cbn in Hb1, Hw1, Hd1, Hp1.
  rewrite <- Hd1 in Hfs, Hi.
  assert (Ev : (request_version s1 =? "HTTP/0.9") = false)
    by (rewrite Hv1; apply String.eqb_neq; exact H09).
  change ("GET / " ++ V ++ crlf) with ("GET" ++ " " ++ "/" ++ " " ++ V ++ crlf).
  rewrite H1. cbn [String.eqb Ascii.eqb Bool.eqb].
  unfold do_GET, bind at 1.
  rewrite (send_head_root_index lib fs _ b names c m s1 Hp1 Hfs Hu Hi).
  rewrite (send_file_200 lib fs _ _ c m s1) by
    (try apply tp_string_no_slash; try apply literal_no_nul; try rewrite Hh1; (assumption || discriminate || reflexivity)).
  rewrite ok200_trace by exact Ev.
  unfold body_chunk. destruct (nonempty c); cbn; rewrite Hw1, Hb1, Hd1; reflexivity.
Qed.


(** The exit status of the script: 1 when the port is taken; otherwise 0 after a KeyboardInterrupt, 1 after another exception from the accept loop, and still running while the loop goes on. *)
Theorem exit_status lib fs ev :
  fst (run lib fs ev)
  = if port_in_use ev then Exit 1
    else match stop_exn (events ev) with
         | None => StillRunning
         | Some KeyboardInterrupt => Exit 0
         | Some _ => Exit 1
         end.
Proof.
  unfold run. destruct (port_in_use ev) eqn:Hp.
  - rewrite main_in_use by exact Hp. reflexivity.
  - rewrite main_listening by exact Hp. rewrite with_close.
    unfold sbind, try_except_kbi. rewrite print_all_spec, serve_forever_spec.
    destruct (stop_exn (events ev)) as [[| |] |]; cbn; rewrite ?app_nil_r; reflexivity.
Qed.

(** When the port is free, the script stays in the script directory, prints the banner (and the shutdown message after a KeyboardInterrupt) on stdout, binds port 8000 on all interfaces, serves every connection from the script directory, and closes the socket when the loop stops. *)
Theorem run_world_listening lib fs ev :
  port_in_use ev = false ->
  let w := snd (run lib fs ev) in
  cwd w = script_dir ev
  /\ stdout w = app banner (match stop_exn (events ev) with
                            | Some KeyboardInterrupt => [shutdown_message]
                            | _ => []
                            end)
  /\ sock w = (match stop_exn (events ev) with
               | None => SockListening "" PORT
               | Some _ => SockClosed
               end)
  /\ bound w = Some ("", PORT)
  /\ served w = map (fun reqs => (script_dir ev, serve_connection lib fs (script_dir ev) reqs))
                  (connections (events ev)).
Proof.
  intros Hp. cbv zeta. unfold run.
  rewrite main_listening by exact Hp. rewrite with_close.
  unfold sbind, try_except_kbi. rewrite print_all_spec, serve_forever_spec.
  destruct (stop_exn (events ev)) as [[| |] |]; cbn; rewrite ?app_nil_r;
    repeat split; reflexivity.
Qed.

(** A request whose header section has a line that is too long or too many headers is answered 431, whatever its method. *)
Theorem header_error_431 lib fs d M P V hr msg err maj mn :
  plain M -> plain P -> plain V -> parse_version V = Some (maj, mn) -> (maj < 2)%Z ->
  V <> "HTTP/0.9" ->
  (hr = HeadersLineTooLong err /\ msg = "Line too long")
  \/ (hr = HeadersTooMany err /\ msg = "Too many headers") ->
  (String.length (M ++ " " ++ P ++ " " ++ V ++ crlf) <= 65536)%nat ->
  exists rest tail,
    serve_connection lib fs d [mkRequest (M ++ " " ++ P ++ " " ++ V ++ crlf) hr]
    = WHeaders (("HTTP/1.0 431 " ++ msg ++ crlf) :: rest) :: tail.
Proof.
  intros HM HP HV Hv Hm H09 Hhr Hlen.
  rewrite serve_one. unfold my_handle_one_request, handle_one_request.
  cbn [raw_requestline raw_headers].
  replace (65536 <? String.length (M ++ " " ++ P ++ " " ++ V ++ crlf))%nat with false
    by (symmetry; apply Nat.ltb_ge; exact Hlen).
  rewrite (nonempty_app_l M _ (proj1 HM)). cbn [negb].
  destruct (parse_request3_hdr_error lib my_end_headers M P V hr msg err maj mn
              (set_close true (init_handler d)) HM HP HV Hv Hm Hhr)
    as [s1 [Hpr [Hv1 [Hb1 Hw1]]]].
  unfold bind at 1. rewrite Hpr.
  assert (Ev : (request_version s1 =? "HTTP/0.9") = false)
    by (rewrite Hv1; apply String.eqb_neq; exact H09).
  destruct (err_trace_gen lib 431 msg (Some err) "Request Header Fields Too Large"
              "The server is unwilling to process the request because its header fields are too large"
              s1 eq_refl Ev) as [rest [tail Hw]].
  exists rest, tail.
  unfold bind at 1.
  destruct (send_error lib my_end_headers 431 (Some msg) (Some err) s1) as [u s2].
  cbn in Hw, Hb1, Hw1. cbn. rewrite Hw, Hw1, Hb1. reflexivity.
Qed.

(** A request line of four or more words with an accepted version is answered 400 Bad request syntax with headers. *)
Theorem too_many_words_400 lib fs d raw hr ws maj mn :
  split_ws (rstrip crlf_char raw) = ws -> (4 <= length ws)%nat ->
  parse_version (last ws "") = Some (maj, mn) -> (maj < 2)%Z -> last ws "" <> "HTTP/0.9" ->
  (String.length raw <= 65536)%nat ->
  exists rest tail,
    serve_connection lib fs d [mkRequest raw hr]
    = WHeaders (("HTTP/1.0 400 Bad request syntax (" ++ repr lib (rstrip crlf_char raw)
                 ++ ")" ++ crlf) :: rest) :: tail.
Proof.
  intros Hws Hl Hv Hm H09 Hlen.
  rewrite serve_one. unfold my_handle_one_request, handle_one_request.
  cbn [raw_requestline raw_headers].
  replace (65536 <? String.length raw)%nat with false
    by (symmetry; apply Nat.ltb_ge; exact Hlen).
  rewrite (blank_nonempty raw ws Hws) by (intros ->; cbn in Hl; lia). cbn [negb].
  destruct (parse_request_syntax lib my_end_headers raw hr ws maj mn
              (set_close true (init_handler d)) Hws Hl Hv Hm)
    as [s1 [Hpr [Hv1 [_ [Hb1 Hw1]]]]].
  unfold bind at 1. rewrite Hpr.
  assert (Ev : (request_version s1 =? "HTTP/0.9") = false)
    by (rewrite Hv1; apply String.eqb_neq; exact H09).
  destruct (err_trace_gen lib 400 ("Bad request syntax (" ++ repr lib (rstrip crlf_char raw) ++ ")")
              None "Bad Request" "Bad request syntax or unsupported method"
              s1 eq_refl Ev) as [rest [tail Hw]].
  exists rest, tail.
  unfold bind at 1.
  destruct (send_error lib my_end_headers 400 _ None s1) as [u s2].
  cbn in Hw, Hb1, Hw1. cbn. rewrite Hw, Hw1, Hb1. rewrite ?append_assoc. reflexivity.
Qed.

(** A one-word request line gets a 400 Bad request syntax error page with no status line or headers. *)
Theorem one_word_400_no_headers lib fs d raw hr w :
  split_ws (rstrip crlf_char raw) = [w] ->
  (String.length raw <= 65536)%nat ->
  serve_connection lib fs d [mkRequest raw hr]
  = body_chunk (error_page lib 400 ("Bad request syntax (" ++ repr lib (rstrip crlf_char raw) ++ ")")
                  "Bad request syntax or unsupported method").
Proof.
  intros Hws Hlen.
  rewrite serve_one. unfold my_handle_one_request, handle_one_request.
  cbn [raw_requestline raw_headers].
  replace (65536 <? String.length raw)%nat with false
    by (symmetry; apply Nat.ltb_ge; exact Hlen).
  rewrite (blank_nonempty raw [w] Hws) by discriminate. cbn [negb].
  unfold bind at 1. rewrite (parse_request_one_word lib my_end_headers raw hr w _ Hws).
  pose proof (err09_trace lib 400 ("Bad request syntax (" ++ repr lib (rstrip crlf_char raw) ++ ")")
                "Bad Request" "Bad request syntax or unsupported method"
                (set_close true (set_version "HTTP/0.9"
                   (set_command None (set_close true (init_handler d)))))
                eq_refl eq_refl eq_refl eq_refl) as Hw.
  unfold bind at 1.
  destruct (send_error lib my_end_headers 400 _ None _) as [u s2].
  exact Hw.
Qed.

(** A connection whose first request line is empty or blank gets no bytes at all. *)
Theorem blank_line_writes_nothing lib fs d raw hr rest :
  split_ws (rstrip crlf_char raw) = [] ->
  (String.length raw <= 65536)%nat ->
  serve_connection lib fs d (mkRequest raw hr :: rest) = [].
Proof.
  intros Hws Hlen.
  rewrite one_request_per_connection, serve_one.
  unfold my_handle_one_request, handle_one_request. cbn [raw_requestline raw_headers].
  replace (65536 <? String.length raw)%nat with false
    by (symmetry; apply Nat.ltb_ge; exact Hlen).
  destruct (nonempty raw); cbn [negb]; [| reflexivity].
  unfold bind at 1. rewrite parse_request_blank by exact Hws. reflexivity.
Qed.

(** A GET of a readable file with an If-Modified-Since date not older than the file, and no If-None-Match, gets a 304 header block and no body. *)
Theorem not_modified_304 lib fs d comps V maj mn hs c m ims :
  comps <> [] -> forallb simple_name comps = true ->
  fs d comps = Some (File true c m) ->
  plain V -> parse_version V = Some (maj, mn) -> (maj < 2)%Z -> V <> "HTTP/0.9" ->
  hhas "If-Modified-Since" hs = true -> hhas "If-None-Match" hs = false ->
  parse_ims lib (hget "If-Modified-Since" hs "") = Some (Some ims) -> (m <= ims)%Z ->
  (String.length ("GET " ++ literal_path comps ++ " " ++ V ++ crlf) <= 65536)%nat ->
  serve_connection lib fs d
    [mkRequest ("GET " ++ literal_path comps ++ " " ++ V ++ crlf) (HeadersOk hs)]
  = [WHeaders (notmod_lines lib)].
Proof.
  intros Hne Hs Hfs HV Hv Hm H09 Hh Hn Hp Hle Hlen.
  rewrite serve_one. unfold my_handle_one_request.
  destruct (handle_one_request_get lib fs my_end_headers (literal_path comps) V hs
              maj mn (set_close true (init_handler d))
              (literal_plain comps Hs) HV Hv Hm Hlen)
    as [s1 [H1 [Hv1 [_ [Hp1 [Hh1 [Hb1 [Hw1 [Hd1 _]]]]]]]]].
  cbn in Hb1, Hw1, Hd1.
  rewrite collapse_literal in Hp1 by assumption.
  rewrite <- Hd1 in Hfs. rewrite <- Hh1 in Hh, Hn, Hp.
  assert (Ev : (request_version s1 =? "HTTP/0.9") = false)
    by (rewrite Hv1; apply String.eqb_neq; exact H09).
  rewrite H1. unfold do_GET, bind at 1.
  rewrite (send_head_file lib fs _ comps c m s1 Hne Hs Hfs Hp1).
  rewrite (send_file_304 lib fs _ _ c m ims s1) by
    (try apply tp_string_no_slash; try apply literal_no_nul; assumption).
  rewrite notmod_trace by exact Ev.
  cbn. rewrite Hw1, Hb1. reflexivity.
Qed.

(** A GET of an existing file that cannot be read is answered 404 File not found. *)
Theorem unreadable_file_404 lib fs d comps V maj mn hs c m :
  comps <> [] -> forallb simple_name comps = true ->
  fs d comps = Some (File false c m) ->
  plain V -> parse_version V = Some (maj, mn) -> (maj < 2)%Z -> V <> "HTTP/0.9" ->
  (String.length ("GET " ++ literal_path comps ++ " " ++ V ++ crlf) <= 65536)%nat ->
  exists rest tail,
    serve_connection lib fs d
      [mkRequest ("GET " ++ literal_path comps ++ " " ++ V ++ crlf) (HeadersOk hs)]
    = WHeaders (("HTTP/1.0 404 File not found" ++ crlf) :: rest) :: tail.
Proof.
  intros Hne Hs Hfs HV Hv Hm H09 Hlen.
  rewrite serve_one. unfold my_handle_one_request.
  destruct (handle_one_request_get lib fs my_end_headers (literal_path comps) V hs
              maj mn (set_close true (init_handler d))
              (literal_plain comps Hs) HV Hv Hm Hlen)
    as [s1 [H1 [Hv1 [_ [Hp1 [_ [Hb1 [Hw1 [Hd1 _]]]]]]]]].
  cbn in Hb1, Hw1, Hd1.
  rewrite collapse_literal in Hp1 by assumption.
  rewrite <- Hd1 in Hfs.
  assert (Ev : (request_version s1 =? "HTTP/0.9") = false)
    by (rewrite Hv1; apply String.eqb_neq; exact H09).
  destruct (err404_trace lib s1 Ev) as [rest [tail [Hw _]]].
  exists rest, tail.
  rewrite H1. unfold do_GET, bind at 1.
  rewrite (send_head_unreadable lib fs _ comps c m s1 Hne Hs Hfs Hp1).
  unfold bind at 1.
  destruct (send_error lib my_end_headers 404 _ None s1) as [u s2].
  cbn in Hw. cbn. rewrite Hw, Hw1, Hb1. reflexivity.
Qed.
End ExtraTheorems.

Module ExtraWitnesses.
Import Http Props Script ExtraDefs ExtraTheorems.

Lemma unsupported_method_501_witness :
  exists rest tail,
    serve_connection Demo.lib Demo.fs Demo.root
      [mkRequest ("POST" ++ " " ++ "/a.txt" ++ " " ++ "HTTP/1.0" ++ crlf) (HeadersOk [])]
    = WHeaders (("HTTP/1.0 501 Unsupported method (" ++ repr Demo.lib "POST" ++ ")" ++ crlf)
                :: rest) :: tail.
Proof.
  apply (unsupported_method_501 Demo.lib Demo.fs Demo.root "POST" "/a.txt" "HTTP/1.0" 1 0 []);
    try (split; reflexivity); try reflexivity; try lia; try discriminate.
  apply Nat.leb_le. vm_compute. reflexivity.
Defined.

Lemma bad_version_400_no_headers_witness :
  serve_connection Demo.lib Demo.fs Demo.root
    [mkRequest ("GET" ++ " " ++ "/" ++ " " ++ "HTTX/1.0" ++ crlf) (HeadersOk [])]
  = body_chunk (error_page Demo.lib 400 ("Bad request version (" ++ repr Demo.lib "HTTX/1.0" ++ ")")
                  "Bad request syntax or unsupported method").
Proof.
  apply (bad_version_400_no_headers Demo.lib Demo.fs Demo.root "GET" "/" "HTTX/1.0" []);
    try (split; reflexivity); try reflexivity.
  apply Nat.leb_le. vm_compute. reflexivity.
Defined.

Lemma http2_505_no_headers_witness :
  serve_connection Demo.lib Demo.fs Demo.root
    [mkRequest ("GET" ++ " " ++ "/" ++ " " ++ "HTTP/2.0" ++ crlf) (HeadersOk [])]
  = body_chunk (error_page Demo.lib 505 ("Invalid HTTP version (" ++ after_first "/" "HTTP/2.0" ++ ")")
                  "Cannot fulfill request").
Proof.
  apply (http2_505_no_headers Demo.lib Demo.fs Demo.root "GET" "/" "HTTP/2.0" [] 2 0);
    try (split; reflexivity); try reflexivity; try lia.
  apply Nat.leb_le. vm_compute. reflexivity.
Defined.

Lemma http09_non_get_400_witness :
  serve_connection Demo.lib Demo.fs Demo.root
    [mkRequest ("POST" ++ " " ++ "/" ++ crlf) (HeadersOk [])]
  = body_chunk (error_page Demo.lib 400 ("Bad HTTP/0.9 request type (" ++ repr Demo.lib "POST" ++ ")")
                  "Bad request syntax or unsupported method").
Proof.
  apply (http09_non_get_400 Demo.lib Demo.fs Demo.root "POST" "/" []);
    try (split; reflexivity); try discriminate.
  apply Nat.leb_le. vm_compute. reflexivity.
Defined.

Lemma long_request_line_414_witness :
  exists rest tail,
    serve_connection Demo.lib Demo.fs Demo.root
      [mkRequest (String.concat "" (repeat "a" 65537)) (HeadersOk [])]
    = WHeaders (("HTTP/1.0 414 Request-URI Too Long" ++ crlf) :: rest) :: tail.
Proof.
  apply long_request_line_414. apply Nat.ltb_lt. vm_compute. reflexivity.
Defined.

Lemma http09_get_file_body_only_witness :
  serve_connection Demo.lib Demo.fs Demo.root
    [mkRequest ("GET " ++ literal_path ["a.txt"] ++ crlf) (HeadersOk [])]
  = body_chunk "hello".
Proof.
  apply (http09_get_file_body_only Demo.lib Demo.fs Demo.root ["a.txt"] [] "hello" 100);
    try discriminate; try reflexivity.
  apply Nat.leb_le. vm_compute. reflexivity.
Defined.


Lemma directory_without_slash_301_witness :
  serve_connection Demo.lib Demo.fs Demo.root
    [mkRequest ("GET" ++ " " ++ literal_path ["sub"] ++ " " ++ "HTTP/1.0" ++ crlf) (HeadersOk [])]
  = [WHeaders (redirect_lines Demo.lib (url_add_slash Demo.lib (literal_path ["sub"])))].
Proof.
  apply (directory_without_slash_301 Demo.lib Demo.fs Demo.root "GET" ["sub"] true []
           "HTTP/1.0" 1 0 []);
    try (left; reflexivity); try (split; reflexivity); try discriminate; try reflexivity;
    try lia.
  apply Nat.leb_le. vm_compute. reflexivity.
Defined.

Lemma root_index_served_witness :
  serve_connection Demo.lib Demo.fs Demo.root
    [mkRequest ("GET / " ++ "HTTP/1.0" ++ crlf) (HeadersOk [])]
  = WHeaders (ok200_lines Demo.lib
                (guess_type Demo.lib (tp_string (mkT Demo.root ["index.html"] false)))
                (dec (String.length "<html></html>")) (date_of Demo.lib 100))
    :: body_chunk "<html></html>".
Proof.
  apply (root_index_served Demo.lib Demo.fs Demo.root "HTTP/1.0" 1 0 [] true
           ["a.txt"; "index.html"; "secret.txt"; "sub"] "<html></html>" 100);
    try (split; reflexivity); try discriminate; try reflexivity; try lia.
  apply Nat.leb_le. vm_compute. reflexivity.
Defined.


Lemma header_error_431_witness :
  exists rest tail,
    serve_connection Demo.lib Demo.fs Demo.root
      [mkRequest ("GET" ++ " " ++ "/" ++ " " ++ "HTTP/1.0" ++ crlf) (HeadersTooMany "got more than 100 headers")]
    = WHeaders (("HTTP/1.0 431 " ++ "Too many headers" ++ crlf) :: rest) :: tail.
Proof.
  apply (header_error_431 Demo.lib Demo.fs Demo.root "GET" "/" "HTTP/1.0"
           (HeadersTooMany "got more than 100 headers") "Too many headers"
           "got more than 100 headers" 1 0);
    try (right; split; reflexivity); try (split; reflexivity); try discriminate;
    try reflexivity; try lia.
  apply Nat.leb_le. vm_compute. reflexivity.
Defined.

Lemma too_many_words_400_witness :
  exists rest tail,
    serve_connection Demo.lib Demo.fs Demo.root
      [mkRequest ("GET / x HTTP/1.0" ++ crlf) (HeadersOk [])]
    = WHeaders (("HTTP/1.0 400 Bad request syntax ("
                 ++ repr Demo.lib (rstrip crlf_char ("GET / x HTTP/1.0" ++ crlf))
                 ++ ")" ++ crlf) :: rest) :: tail.
Proof.
  apply (too_many_words_400 Demo.lib Demo.fs Demo.root ("GET / x HTTP/1.0" ++ crlf)
           (HeadersOk []) ["GET"; "/"; "x"; "HTTP/1.0"] 1 0).
  - vm_compute. reflexivity.
  - cbn. lia.
  - reflexivity.
  - lia.
  - discriminate.
  - apply Nat.leb_le. vm_compute. reflexivity.
Defined.

Lemma one_word_400_no_headers_witness :
  serve_connection Demo.lib Demo.fs Demo.root [mkRequest ("GET" ++ crlf) (HeadersOk [])]
  = body_chunk (error_page Demo.lib 400
                  ("Bad request syntax (" ++ repr Demo.lib (rstrip crlf_char ("GET" ++ crlf)) ++ ")")
                  "Bad request syntax or unsupported method").
Proof.
  apply (one_word_400_no_headers Demo.lib Demo.fs Demo.root ("GET" ++ crlf) (HeadersOk []) "GET").
  - vm_compute. reflexivity.
  - apply Nat.leb_le. vm_compute. reflexivity.
Defined.

Lemma blank_line_writes_nothing_witness :
  serve_connection Demo.lib Demo.fs Demo.root
    [mkRequest crlf (HeadersOk []); Demo.req "GET /a.txt HTTP/1.0"] = [].
Proof.
  apply (blank_line_writes_nothing Demo.lib Demo.fs Demo.root crlf (HeadersOk [])).
  - vm_compute. reflexivity.
  - apply Nat.leb_le. vm_compute. reflexivity.
Defined.

Lemma not_modified_304_witness :
  serve_connection Demo.lib Demo.fs Demo.root
    [mkRequest ("GET " ++ literal_path ["a.txt"] ++ " " ++ "HTTP/1.0" ++ crlf)
       (HeadersOk [("If-Modified-Since", "Thu, 01 Jan 1970 00:03:20 GMT")])]
  = [WHeaders (notmod_lines Demo.lib)].
Proof.
  apply (not_modified_304 Demo.lib Demo.fs Demo.root ["a.txt"] "HTTP/1.0" 1 0
           [("If-Modified-Since", "Thu, 01 Jan 1970 00:03:20 GMT")] "hello" 100 200);
    try (split; reflexivity); try discriminate; try reflexivity; try lia.
  apply Nat.leb_le. vm_compute. reflexivity.
Defined.

Lemma unreadable_file_404_witness :
  exists rest tail,
    serve_connection Demo.lib Demo.fs Demo.root
      [mkRequest ("GET " ++ literal_path ["secret.txt"] ++ " " ++ "HTTP/1.0" ++ crlf)
         (HeadersOk [])]
    = WHeaders (("HTTP/1.0 404 File not found" ++ crlf) :: rest) :: tail.
Proof.
  apply (unreadable_file_404 Demo.lib Demo.fs Demo.root ["secret.txt"] "HTTP/1.0" 1 0 []
           "s3cr3t" 100);
    try (split; reflexivity); try discriminate; try reflexivity; try lia.
  apply Nat.leb_le. vm_compute. reflexivity.
Defined.

Lemma run_world_listening_witness :
  let w := snd (run Demo.lib Demo.fs
                  (Demo.proc false [Connection [Demo.req "GET /a.txt HTTP/1.0"]; HandlerFault;
                                    Idle; LoopFault (OtherError "ValueError")])) in
  cwd w = "/srv/mdp" /\ stdout w = app banner [] /\ sock w = SockClosed
  /\ bound w = Some ("", PORT)
  /\ served w = [("/srv/mdp", serve_connection Demo.lib Demo.fs "/srv/mdp"
                                [Demo.req "GET /a.txt HTTP/1.0"])].
Proof.
  exact (run_world_listening Demo.lib Demo.fs
           (Demo.proc false [Connection [Demo.req "GET /a.txt HTTP/1.0"]; HandlerFault;
                             Idle; LoopFault (OtherError "ValueError")]) eq_refl).
Defined.

End ExtraWitnesses.
